(** * Tock: the render-style engine and the interaction state machine

    A shallow embedding of [tock.py] (class [TockClock]).  Python [int] is
    [Z]; Python [str] is [string], holding the UTF-8 bytes of the text (the
    block and dot glyphs take three bytes each; every string the code
    iterates over character by character is plain ASCII); the two [dict]
    tables are [gmap]s; the list of lines that [draw_digital_clock] updates
    by index is a [list string] with the [IndexError] of an out-of-range
    index written out as [None]. *)

From Stdlib Require Import ZArith Ascii String DecimalString.
From stdpp Require Import base gmap strings list.

Local Open Scope string_scope.
Local Open Scope Z_scope.

(** ** Python built-ins used by the code *)

Module Py.

(** [str(n)] for an [int]. *)
Definition str (n : Z) : string := NilZero.string_of_int (Z.to_int n).

(** Binary digits of a positive number, most significant first. *)
Fixpoint bin_pos (p : positive) : string :=
  match p with
  | xH => "1"
  | xO q => bin_pos q +:+ "0"
  | xI q => bin_pos q +:+ "1"
  end.

(** The digits of [abs n] in base two, as [format(n, 'b')] prints them. *)
Definition bin_abs (n : Z) : string :=
  match n with
  | Z0 => "0"
  | Zpos p => bin_pos p
  | Zneg p => bin_pos p
  end.

Fixpoint zeros (k : nat) : string :=
  match k with
  | O => ""
  | S k' => String "0" (zeros k')
  end.

(** Sign-aware zero padding ([0] flag with a width): the sign comes first,
    zeros fill up to [width] characters in all, longer numbers are kept. *)
Definition zero_pad (width : nat) (negative : bool) (digits : string) : string :=
  let sign := if negative then "-" else "" in
  let used := (String.length sign + String.length digits)%nat in
  sign +:+ zeros (width - used) +:+ digits.

(** [f"{n:02d}"]. *)
Definition format_02d (n : Z) : string :=
  zero_pad 2 (n <? 0) (str (Z.abs n)).

(** [format(n, '06b')]. *)
Definition format_06b (n : Z) : string :=
  zero_pad 6 (n <? 0) (bin_abs n).

(** [sep.join(parts)]. *)
Fixpoint join (sep : string) (parts : list string) : string :=
  match parts with
  | [] => ""
  | [p] => p
  | p :: rest => p +:+ sep +:+ join sep rest
  end.

(** [ord(c)] for a one-character ASCII string. *)
Definition ord (c : ascii) : Z := Z.of_N (N_of_ascii c).

(** [l[i]] for a list: a negative index counts from the end, an index out
    of range raises [IndexError] ([None]). *)
Definition index {A} (l : list A) (i : Z) : option A :=
  let len := Z.of_nat (length l) in
  if (0 <=? i) && (i <? len) then l !! Z.to_nat i
  else if (- len <=? i) && (i <? 0) then l !! Z.to_nat (len + i)
  else None.

(** [l[:-1]]. *)
Definition drop_last {A} (l : list A) : list A := removelast l.

(** A byte that continues a UTF-8 sequence ([10xxxxxx]). *)
Definition is_continuation (c : ascii) : bool :=
  match c with
  | Ascii _ _ _ _ _ _ b6 b7 => b7 && negb b6
  end.

(** [len(s)] for a string: its number of characters, that is, of bytes
    that do not continue a UTF-8 sequence. *)
Fixpoint len (s : string) : Z :=
  match s with
  | EmptyString => 0
  | String c s' => (if is_continuation c then 0 else 1) + len s'
  end.

Fixpoint spaces (k : nat) : string :=
  match k with
  | O => ""
  | S k' => String " " (spaces k')
  end.

(** [s.center(width)]: the string itself when it is at least [width] long;
    otherwise [marg = width - len(s)] spaces are added, of which
    [marg // 2 + (marg & width & 1)] on the left. *)
Definition center (s : string) (width : Z) : string :=
  if width <=? len s then s
  else
    let marg := width - len s in
    let left := marg / 2 + Z.land (Z.land marg width) 1 in
    spaces (Z.to_nat left) +:+ s +:+ spaces (Z.to_nat (marg - left)).

(** The characters of a string, in order ([for c in s]). *)
Fixpoint chars (s : string) : list ascii :=
  match s with
  | EmptyString => []
  | String c s' => c :: chars s'
  end.

End Py.

(** ** The clock *)

Module TockClock.

(** *** State set up by [__init__] *)

Record AppState := {
  current_style : Z;
  show_footer : bool;
  running : bool
}.

Definition init : AppState :=
  {| current_style := 0; show_footer := true; running := true |}.

Definition styles : list string := ["digital"; "simple"; "binary"; "words"].

(** [self.digits]: the large glyphs of the digital display. *)
Definition digits : gmap ascii (list string) :=
  {[
     "0"%char := [" ████ "; "█    █"; "█    █"; "█    █"; "█    █"; " ████ "] ;
     "1"%char := ["  █   "; " ██   "; "  █   "; "  █   "; "  █   "; " ████ "] ;
     "2"%char := [" ████ "; "█    █"; "     █"; "    █ "; "   █  "; " █████"] ;
     "3"%char := [" ████ "; "     █"; "  ███ "; "     █"; "     █"; " ████ "] ;
     "4"%char := ["█     "; "█  █  "; "█████ "; "    █ "; "    █ "; "    █ "] ;
     "5"%char := [" █████"; "█     "; "█████ "; "     █"; "     █"; " ████ "] ;
     "6"%char := [" ████ "; "█     "; "█████ "; "█    █"; "█    █"; " ████ "] ;
     "7"%char := [" █████"; "     █"; "    █ "; "   █  "; "  █   "; "  █   "] ;
     "8"%char := [" ████ "; "█    █"; " ████ "; "█    █"; "█    █"; " ████ "] ;
     "9"%char := [" ████ "; "█    █"; " █████"; "     █"; "     █"; " ████ "] ;
     ":"%char := ["      "; "  ██  "; "  ██  "; "  ██  "; "  ██  "; "      "]
  ]}.

(** [f"{h:02d}:{m:02d}:{s:02d}"]. *)
Definition time_str (h m s : Z) : string :=
  Py.format_02d h +:+ ":" +:+ Py.format_02d m +:+ ":" +:+ Py.format_02d s.

(** *** [draw_digital_clock] *)

(** [self.digits.get(char, self.digits['0'])]; the default is evaluated
    first and raises [KeyError] ([None]) were the table to lack it. *)
Definition char_lines (char : ascii) : option (list string) :=
  match digits !! "0"%char with
  | None => None
  | Some zero => Some (default zero (digits !! char))
  end.

(** The inner loop, [lines[i] += line + '  '] over [enumerate(char_lines)],
    entered at index [i]. *)
Fixpoint add_rows (lines : list string) (i : nat) (rows : list string)
  : option (list string) :=
  match rows with
  | [] => Some lines
  | line :: rest =>
      match lines !! i with
      | None => None
      | Some old => add_rows (<[i := old +:+ line +:+ "  "]> lines) (S i) rest
      end
  end.

(** The outer loop, over the characters of the time string. *)
Fixpoint add_chars (lines : list string) (cs : list ascii) : option (list string) :=
  match cs with
  | [] => Some lines
  | char :: rest =>
      match char_lines char with
      | None => None
      | Some rows =>
          match add_rows lines 0 rows with
          | None => None
          | Some lines' => add_chars lines' rest
          end
      end
  end.

Definition draw_digital_clock (h m s : Z) : option (list string) :=
  add_chars (replicate 6 "") (Py.chars (time_str h m s)).

(** *** [draw_simple_clock] *)

Definition draw_simple_clock (h m s : Z) : list string := [time_str h m s].

(** *** [draw_binary_clock] *)

Definition filled : string := "● ".
Definition hollow : string := "○ ".

(** The loop over [bits], appending one dot and a space per bit. *)
Fixpoint add_bits (line : string) (bits : list ascii) : string :=
  match bits with
  | [] => line
  | bit :: rest =>
      add_bits (line +:+ (if Ascii.eqb bit "1" then filled else hollow)) rest
  end.

(** ['  ' + '  '.join(['6','5','4','3','2','1'])]. *)
Definition ruler : string :=
  "  " +:+ Py.join "  " ["6"; "5"; "4"; "3"; "2"; "1"].

(** One labelled line: [bits = format(value, '06b')], then the label
    followed by the dots of the bits. *)
Definition binary_line (label : string) (value : Z) : string :=
  let bits := Py.format_06b value in
  add_bits label (Py.chars bits).

(** The loop over [zip([hours, minutes, seconds], labels)]. *)
Fixpoint add_groups (lines : list string) (groups : list (Z * string)) : list string :=
  match groups with
  | [] => lines
  | (value, label) :: rest =>
      add_groups (lines ++ [binary_line label value] ++ [ruler] ++ [""]) rest
  end.

Definition draw_binary_clock (h m s : Z) : list string :=
  let hours := h mod 24 in
  let minutes := m in
  let seconds := s in
  let labels := ["H "; "M "; "S "] in
  Py.drop_last (add_groups [] (zip [hours; minutes; seconds] labels)).

(** *** [draw_words_clock] *)

(** The table local to [_number_to_words]. *)
Definition words : gmap Z string :=
  {[ 1 := "ONE"; 2 := "TWO"; 3 := "THREE"; 4 := "FOUR";
     5 := "FIVE"; 6 := "SIX"; 7 := "SEVEN"; 8 := "EIGHT";
     9 := "NINE"; 10 := "TEN"; 11 := "ELEVEN"; 12 := "TWELVE" ]}.

(** [words.get(n, str(n))]. *)
Definition _number_to_words (n : Z) : string :=
  default (Py.str n) (words !! n).

Definition _minutes_to_words (m : Z) : string :=
  if m =? 1 then "ONE"
  else if m =? 15 then "FIFTEEN"
  else if m =? 30 then "THIRTY"
  else if m =? 45 then "FORTY-FIVE"
  else if m <? 30 then _number_to_words m
  else
    let ones := _number_to_words (m - 40) in
    "FORTY-" +:+ ones.

(** [self._number_to_words(h % 12 or 12)]. *)
Definition hours_word (h : Z) : string :=
  _number_to_words (if h mod 12 =? 0 then 12 else h mod 12).

Definition draw_words_clock (h m s : Z) : list string :=
  let hours_word := hours_word h in
  let minutes_word := _minutes_to_words m in
  if m =? 0 then [hours_word +:+ " O'CLOCK"]
  else [hours_word +:+ " " +:+ minutes_word].

(** *** [get_clock_display]

    The time read by [get_current_time] is an argument.  The result is
    [None] when the call raises. *)
Definition get_clock_display (now : Z * Z * Z) (st : AppState)
  : option (list string) :=
  let '(h, m, s) := now in
  match Py.index styles (current_style st) with
  | None => None
  | Some style =>
      if String.eqb style "digital" then draw_digital_clock h m s
      else if String.eqb style "simple" then Some (draw_simple_clock h m s)
      else if String.eqb style "binary" then Some (draw_binary_clock h m s)
      else if String.eqb style "words" then Some (draw_words_clock h m s)
      else Some (draw_simple_clock h m s)
  end.

(** *** [center_text], [draw_centered] and the footer position

    The size read by [screen.getmaxyx()] is an argument.  A call of
    [screen.addstr] is recorded with its arguments; whether curses accepts
    it is not the program's business, which passes over [curses.error]. *)

Definition center_text (text : string) (max_width : Z) : string :=
  Py.center text max_width.

Record addstr_call := { y : Z; x : Z; text : string }.

Definition draw_centered (height width : Z) (text_lines : list string)
  : list addstr_call :=
  let start_y := (height - Z.of_nat (length text_lines)) / 2 in
  imap (fun i line =>
          let x := (width - Py.len line) / 2 in
          {| y := start_y + Z.of_nat i; x := x; text := line |})
       text_lines.

Definition footer_text : string := "H - hide  Arrow - change style".

(** The [addstr] call of [draw_footer], none when the footer is hidden. *)
Definition draw_footer_call (height width : Z) (st : AppState)
  : list addstr_call :=
  if negb (show_footer st) then []
  else
    let x := (width - Py.len footer_text) / 2 in
    [{| y := height - 2; x := x; text := footer_text |}].

(** *** [handle_input] and [run]

    [curses.KEY_LEFT] and [curses.KEY_RIGHT] are constants of the curses
    library, not of this program: they are parameters here.  The key that
    [getch] returns is an argument. *)
Section Curses.

Variables KEY_LEFT KEY_RIGHT : Z.

Definition handle_input (key : Z) (st : AppState) : AppState :=
  if key =? KEY_LEFT then
    {| current_style := (current_style st - 1) mod Z.of_nat (length styles);
       show_footer := show_footer st; running := running st |}
  else if key =? KEY_RIGHT then
    {| current_style := (current_style st + 1) mod Z.of_nat (length styles);
       show_footer := show_footer st; running := running st |}
  else if (key =? Py.ord "h") || (key =? Py.ord "H") then
    {| current_style := current_style st;
       show_footer := negb (show_footer st); running := running st |}
  else if (key =? Py.ord "q") || (key =? Py.ord "Q") then
    {| current_style := current_style st;
       show_footer := show_footer st; running := false |}
  else st.

(** What the loop does to the terminal, one constructor per call made by
    [run]; [draw_centered] and [draw_footer] are recorded as calls, the
    footer only when it writes. *)
Inductive event :=
  | InitScr | NoEcho | CBreak | CursSet (visibility : Z)
  | NoDelay (flag : bool) | Keypad (flag : bool)
  | Clear
  | DrawCentered (text_lines : list string)
  | Footer (footer_text : string)
  | Refresh
  | HalfDelay (tenths : Z)
  | GetCh (key : Z)
  | Sleep
  | NoCBreak | Echo | EndWin.

Definition draw_footer (st : AppState) : list event :=
  if negb (show_footer st) then []
  else [Footer "H - hide  Arrow - change style"].

(** What one iteration of the loop reads from outside: the clock and the
    keyboard. *)
Record sample := { now : Z * Z * Z; key : Z }.

(** How the loop was left: the [while] test failed, an exception escaped
    the body, or the supplied samples ran out with the loop still going. *)
Inductive outcome := Stopped | Raised | Pending.

(** The body of the [while] loop; [None] when [get_clock_display] raises. *)
Definition tick (i : sample) (st : AppState) : option (list event * AppState) :=
  match get_clock_display (now i) st with
  | None => None
  | Some display_lines =>
      Some (([Clear; DrawCentered display_lines] ++ draw_footer st
               ++ [Refresh; HalfDelay 10; GetCh (key i); Sleep])%list,
            handle_input (key i) st)
  end.

(** [while self.running: ...], one sample per iteration. *)
Fixpoint loop (inputs : list sample) (st : AppState)
  : list event * AppState * outcome :=
  match inputs with
  | [] => ([], st, if running st then Pending else Stopped)
  | i :: rest =>
      if running st then
        match tick i st with
        | None => ([Clear], st, Raised)
        | Some (evs, st') =>
            let '(evs', st'', o) := loop rest st' in
            ((evs ++ evs')%list, st'', o)
        end
      else ([], st, Stopped)
  end.

(** [run]: set-up, the loop, and the [finally] block. *)
Definition run (inputs : list sample) (st : AppState)
  : list event * AppState * outcome :=
  let '(evs, st', o) := loop inputs st in
  (([InitScr; NoEcho; CBreak; CursSet 0; NoDelay true; Keypad true]
      ++ evs ++ [NoCBreak; Keypad false; Echo; EndWin])%list, st', o).

(** The number of iterations begun: each one starts by clearing the screen. *)
Fixpoint ticks (evs : list event) : nat :=
  match evs with
  | [] => 0
  | Clear :: rest => S (ticks rest)
  | _ :: rest => ticks rest
  end.

End Curses.

End TockClock.

Import TockClock.

(** ** The specification's vocabulary

    Definitions that follow the words of the specification, to be compared
    with the ones taken from the code. *)

Module Spec.

(** The character of a decimal digit [0..9]. *)
Definition digit (d : Z) : ascii := ascii_of_N (48 + Z.to_N d).

(** A number below 100 written with exactly two digits ("zero-padded"). *)
Definition two_digits (n : Z) : string :=
  String (digit (n / 10)) (String (digit (n mod 10)) "").

(** The zero-padded 24-hour string [HH:MM:SS]. *)
Definition hh_mm_ss (h m s : Z) : string :=
  two_digits h +:+ ":" +:+ two_digits m +:+ ":" +:+ two_digits s.

(** The decimal numeral of a number of at most two digits, with its sign. *)
Definition numeral (n : Z) : string :=
  let digits_of k := if k <? 10 then String (digit k) "" else two_digits k in
  if n <? 0 then "-" +:+ digits_of (- n) else digits_of n.

(** The English word of a number from 1 to 12. *)
Definition english (n : Z) : option string :=
  match n with
  | 1 => Some "ONE" | 2 => Some "TWO" | 3 => Some "THREE" | 4 => Some "FOUR"
  | 5 => Some "FIVE" | 6 => Some "SIX" | 7 => Some "SEVEN" | 8 => Some "EIGHT"
  | 9 => Some "NINE" | 10 => Some "TEN" | 11 => Some "ELEVEN"
  | 12 => Some "TWELVE"
  | _ => None
  end.

(** The hour of the 12-hour convention: 0 maps to 12, 13-23 map to 1-11. *)
Definition hour_12 (h : Z) : Z :=
  if h =? 0 then 12 else if 13 <=? h then h - 12 else h.

(** Row [i] of the glyph of character [c] in the glyph table. *)
Definition glyph_row (i : nat) (c : ascii) : string :=
  match digits !! c with
  | Some rows => default "" (rows !! i)
  | None => ""
  end.

(** The rows of the characters side by side, two spaces between consecutive
    characters and none after the last. *)
Definition separated_line (i : nat) (cs : list ascii) : string :=
  Py.join "  " (map (glyph_row i) cs).

(** The rows of the characters side by side, each followed by two spaces. *)
Fixpoint trailed_line (i : nat) (cs : list ascii) : string :=
  match cs with
  | [] => ""
  | c :: rest => glyph_row i c +:+ "  " +:+ trailed_line i rest
  end.

(** The dots of a line, in order: [true] for a filled dot, [false] for a
    hollow one; every other character is passed over. *)
Fixpoint dot_pattern (line : string) : list bool :=
  match line with
  | EmptyString => []
  | String _ rest =>
      if String.prefix "●" line then true :: dot_pattern rest
      else if String.prefix "○" line then false :: dot_pattern rest
      else dot_pattern rest
  end.

(** The number a bit pattern spells, most significant bit first. *)
Definition msb_first (bits : list bool) : Z :=
  fold_left (fun acc (b : bool) => 2 * acc + (if b then 1 else 0)) bits 0.

(** A time of day as the time source supplies it. *)
Definition valid_time (h m s : Z) : Prop :=
  0 <= h <= 23 /\ 0 <= m <= 59 /\ 0 <= s <= 59.

(** The input events, by the key that carries them: the right arrow selects
    the next style, the left arrow the previous one, [q] and [Q] quit. *)
Definition NextStyle (KEY_LEFT KEY_RIGHT : Z) : AppState -> AppState :=
  handle_input KEY_LEFT KEY_RIGHT KEY_RIGHT.

Definition PreviousStyle (KEY_LEFT KEY_RIGHT : Z) : AppState -> AppState :=
  handle_input KEY_LEFT KEY_RIGHT KEY_LEFT.

Definition quit_key (key : Z) : Prop := key = Py.ord "q" \/ key = Py.ord "Q".

Definition toggle_key (key : Z) : Prop := key = Py.ord "h" \/ key = Py.ord "H".

(** The value of a decimal digit character. *)
Definition digit_value (c : ascii) : Z := Z.of_N (N_of_ascii c) - 48.

(** Reading a time back from a string of the shape [HH:MM:SS]. *)
Definition parse_hh_mm_ss (line : string) : option (Z * Z * Z) :=
  match line with
  | String h1 (String h0 (String ":" (String m1 (String m0
      (String ":" (String s1 (String s0 EmptyString))))))) =>
      Some (10 * digit_value h1 + digit_value h0,
            10 * digit_value m1 + digit_value m0,
            10 * digit_value s1 + digit_value s0)
  | _ => None
  end.

(** Whether a character occurs in a string. *)
Fixpoint has_char (c : ascii) (s : string) : bool :=
  match s with
  | EmptyString => false
  | String c' s' => Ascii.eqb c c' || has_char c s'
  end.

(** The columns of a line, counted in characters from [col] for its first
    one, at which a character chosen by [starts] begins; [starts] sees the
    line from that character on. *)
Fixpoint columns_from (starts : string -> bool) (col : Z) (line : string)
  : list Z :=
  match line with
  | EmptyString => []
  | String c rest =>
      if Py.is_continuation c then columns_from starts col rest
      else (if starts line then [col] else [])
             ++ columns_from starts (col + 1) rest
  end.

(** A filled or hollow dot begins here. *)
Definition at_dot (line : string) : bool :=
  String.prefix "●" line || String.prefix "○" line.

(** A decimal digit begins here. *)
Definition at_digit (line : string) : bool :=
  match line with
  | EmptyString => false
  | String c _ => (0 <=? digit_value c) && (digit_value c <=? 9)
  end.

(** Whether a string holds a decimal digit. *)
Fixpoint has_digit (s : string) : bool :=
  match s with
  | EmptyString => false
  | String _ s' => at_digit s || has_digit s'
  end.

(** A call of [addstr] that lies inside a window of the given size. *)
Definition in_window (height width : Z) (c : addstr_call) : Prop :=
  0 <= y c < height /\ 0 <= x c /\ x c + Py.len (text c) <= width.

(** The number of lines of the frame of each style, by style index. *)
Definition frame_height (style_index : Z) : nat :=
  match style_index with
  | 0 => 6 | 1 => 1 | 2 => 8 | _ => 1
  end.

End Spec.

Example str_neg : Py.str (-9) = "-9". Proof. reflexivity. Qed.
Example fmt5 : Py.format_02d 5 = "05". Proof. reflexivity. Qed.
Example fmt123 : Py.format_02d 123 = "123". Proof. reflexivity. Qed.
Example fmtm1 : Py.format_02d (-1) = "-1". Proof. reflexivity. Qed.
Example fmtb : Py.format_06b 5 = "000101". Proof. reflexivity. Qed.
Example fmtb2 : Py.format_06b (-1) = "-00001". Proof. reflexivity. Qed.
Example fmtb3 : Py.format_06b 100 = "1100100". Proof. reflexivity. Qed.

(** ** Finite ranges *)

(** A decidable property of the integers of a range holds when it computes
    to true on each of them. *)
Lemma range_check (P : Z -> Prop) `{!forall z, Decision (P z)} (lo len : Z) :
  bool_decide (Forall P (seqZ lo len)) = true ->
  forall z, lo <= z < lo + len -> P z.
Proof.
  intros Hb. apply bool_decide_eq_true in Hb.
  by apply Forall_seqZ.
Qed.

Lemma format_02d_two_digits (n : Z) :
  0 <= n < 100 -> Py.format_02d n = Spec.two_digits n.
Proof.
  revert n. apply (range_check (fun n => Py.format_02d n = Spec.two_digits n) 0 100).
  by vm_compute.
Qed.

(** ** The words style *)

Lemma number_to_words_english (n : Z) :
  1 <= n < 1 + 12 -> Spec.english n = Some (_number_to_words n).
Proof.
  revert n.
  apply (range_check (fun n => Spec.english n = Some (_number_to_words n))).
  by vm_compute.
Qed.

Lemma hours_word_12 (h : Z) :
  0 <= h < 0 + 24 -> Spec.english (Spec.hour_12 h) = Some (hours_word h).
Proof.
  revert h.
  apply (range_check (fun h => Spec.english (Spec.hour_12 h) = Some (hours_word h))).
  by vm_compute.
Qed.

Lemma draw_words_clock_minutes (h m s : Z) :
  m <> 0 ->
  draw_words_clock h m s = [hours_word h +:+ " " +:+ _minutes_to_words m].
Proof.
  intros Hm. unfold draw_words_clock.
  destruct (Z.eqb_spec m 0) as [->|_]; [lia | reflexivity].
Qed.

Lemma minutes_forty_low (m : Z) :
  31 <= m < 31 + 14 ->
  _minutes_to_words m = "FORTY-" +:+ _number_to_words (m - 40).
Proof.
  revert m.
  apply (range_check
           (fun m => _minutes_to_words m = "FORTY-" +:+ _number_to_words (m - 40))).
  by vm_compute.
Qed.

Lemma minutes_forty_high (m : Z) :
  46 <= m < 46 + 14 ->
  _minutes_to_words m = "FORTY-" +:+ _number_to_words (m - 40).
Proof.
  revert m.
  apply (range_check
           (fun m => _minutes_to_words m = "FORTY-" +:+ _number_to_words (m - 40))).
  by vm_compute.
Qed.

(** Outside the table the lookup gives the decimal numeral. *)
Lemma number_to_words_default (n : Z) :
  -99 <= n < -99 + 199 ->
  _number_to_words n = default (Spec.numeral n) (Spec.english n).
Proof.
  revert n.
  apply (range_check
           (fun n => _number_to_words n
                     = default (Spec.numeral n) (Spec.english n))).
  by vm_compute.
Qed.

(** C1, as stated, fails: at hour 5, minute 54 the words style prints
    "FIVE FORTY-14", not "FIVE FORTY-FOURTEEN". *)
Lemma C1_forty_fourteen_refuted :
  draw_words_clock 5 54 0 <> ["FIVE FORTY-FOURTEEN"].
Proof. vm_compute. discriminate. Qed.

(** C1, amended: for every minute [m] in 31-44 and 46-59 the minute phrase is
    "FORTY-" followed by what the number lookup gives for [m - 40]: its English
    word when [m - 40] is one of 1-12, its decimal numeral otherwise.  Minute
    53 gives "FORTY-13", and hour 5, minute 54 gives the single line
    "FIVE FORTY-14". *)
Theorem C1_forty_offset (m : Z) (Hm : 31 <= m <= 44 \/ 46 <= m <= 59) :
  _minutes_to_words m
    = "FORTY-" +:+ default (Spec.numeral (m - 40)) (Spec.english (m - 40))
  /\ _minutes_to_words 53 = "FORTY-13"
  /\ forall s, draw_words_clock 5 54 s = ["FIVE FORTY-14"].
Proof.
  split; [|split; [reflexivity | intros s; reflexivity]].
  rewrite <- number_to_words_default by lia.
  destruct Hm; [apply minutes_forty_low | apply minutes_forty_high]; lia.
Qed.

Lemma C1_forty_offset_witness :
  _minutes_to_words 54 = "FORTY-14" /\ _minutes_to_words 43 = "FORTY-THREE".
Proof.
  split.
  - exact (proj1 (C1_forty_offset 54 ltac:(lia))).
  - exact (proj1 (C1_forty_offset 43 ltac:(lia))).
Defined.

(** C6: the words style converts the hour by the 12-hour convention (0 maps
    to TWELVE, 13-23 map to ONE-ELEVEN) and produces exactly one line, the
    hour word followed by " O'CLOCK" at minute 0 and by a space and the
    minute phrase otherwise; the four examples of the specification hold. *)
Theorem C6_words_hour_12 (h m s : Z) (Hh : 0 <= h <= 23) :
  (exists hour_word,
      Spec.english (Spec.hour_12 h) = Some hour_word
      /\ draw_words_clock h m s
         = [hour_word +:+ (if m =? 0 then " O'CLOCK"
                           else " " +:+ _minutes_to_words m)])
  /\ length (draw_words_clock h m s) = 1%nat
  /\ Spec.english (Spec.hour_12 0) = Some "TWELVE"
  /\ (13 <= h -> Spec.hour_12 h = h - 12 /\ 1 <= h - 12 <= 11)
  /\ draw_words_clock 0 0 s = ["TWELVE O'CLOCK"]
  /\ draw_words_clock 13 15 s = ["ONE FIFTEEN"]
  /\ draw_words_clock 9 45 s = ["NINE FORTY-FIVE"]
  /\ draw_words_clock 5 1 s = ["FIVE ONE"].
Proof.
  split; [|split; [|split; [reflexivity|split; [|repeat split; reflexivity]]]].
  - exists (hours_word h). split; [apply hours_word_12; lia|].
    unfold draw_words_clock. by destruct (m =? 0).
  - unfold draw_words_clock. by destruct (m =? 0).
  - intros H13. split; [|lia]. unfold Spec.hour_12.
    destruct (Z.eqb_spec h 0); [lia|].
    destruct (Z.leb_spec 13 h); [reflexivity | lia].
Qed.

Lemma C6_words_hour_12_witness :
  draw_words_clock 23 7 0 = ["ELEVEN SEVEN"].
Proof.
  destruct (C6_words_hour_12 23 7 0 ltac:(lia)) as [[w [Hw Hd]] _].
  rewrite Hd. vm_compute in Hw. injection Hw as <-. reflexivity.
Defined.

(** C9: for every hour and every minute [m] in {13, 14} and 16-29 the
    minute phrase is the decimal numeral of [m], not an English word: the
    word table has no entry for [m], and the lookup falls back to the
    numeral.  Hour 5, minute 13 renders as "FIVE 13". *)
Theorem C9_minutes_numeral (h m s : Z)
  (Hm : m = 13 \/ m = 14 \/ 16 <= m <= 29) :
  words !! m = None
  /\ Spec.english m = None
  /\ _minutes_to_words m = Spec.numeral m
  /\ draw_words_clock h m s = [hours_word h +:+ " " +:+ Spec.numeral m]
  /\ draw_words_clock 5 13 s = ["FIVE 13"].
Proof.
  assert (13 <= m < 13 + 17 /\ m <> 15) as [Hr Hn] by lia.
  assert (words !! m = None /\ Spec.english m = None
          /\ _minutes_to_words m = Spec.numeral m) as (Hw & He & Hp).
  { clear Hm. revert m Hr Hn.
    apply (range_check
             (fun m => m <> 15 ->
                words !! m = None /\ Spec.english m = None
                /\ _minutes_to_words m = Spec.numeral m)).
    by vm_compute. }
  repeat split; try done.
  rewrite draw_words_clock_minutes by lia. by rewrite Hp.
Qed.

Lemma C9_minutes_numeral_witness :
  draw_words_clock 17 29 0 = ["FIVE 29"].
Proof.
  pose proof (C9_minutes_numeral 17 29 0 ltac:(lia)) as (_ & _ & _ & Hd & _).
  rewrite Hd. reflexivity.
Defined.

(** C10: for every hour and every minute [m] in 31-39 the minute phrase is
    "FORTY-" followed by the decimal numeral of the negative number
    [m - 40]; minute 31 yields "FORTY--9". *)
Theorem C10_minutes_negative_offset (h m s : Z) (Hm : 31 <= m <= 39) :
  m - 40 < 0
  /\ _minutes_to_words m = "FORTY-" +:+ Spec.numeral (m - 40)
  /\ _minutes_to_words m = "FORTY--" +:+ String (Spec.digit (40 - m)) ""
  /\ draw_words_clock h m s
     = [hours_word h +:+ " " +:+ "FORTY-" +:+ Spec.numeral (m - 40)]
  /\ _minutes_to_words 31 = "FORTY--9".
Proof.
  assert (31 <= m < 31 + 9) as Hr by lia.
  assert (_minutes_to_words m = "FORTY-" +:+ Spec.numeral (m - 40)
          /\ _minutes_to_words m = "FORTY--" +:+ String (Spec.digit (40 - m)) "")
    as [Hn Hd].
  { clear Hm. revert m Hr.
    apply (range_check
             (fun m =>
                _minutes_to_words m = "FORTY-" +:+ Spec.numeral (m - 40)
                /\ _minutes_to_words m
                   = "FORTY--" +:+ String (Spec.digit (40 - m)) "")).
    by vm_compute. }
  repeat split; try done; try lia.
  rewrite draw_words_clock_minutes by lia. by rewrite Hn.
Qed.

Lemma C10_minutes_negative_offset_witness :
  draw_words_clock 8 35 0 = ["EIGHT FORTY--5"].
Proof.
  pose proof (C10_minutes_negative_offset 8 35 0 ltac:(lia)) as (_ & _ & _ & Hd & _).
  rewrite Hd. reflexivity.
Defined.

(** ** The simple style *)

Lemma time_str_valid (h m s : Z) :
  Spec.valid_time h m s -> time_str h m s = Spec.hh_mm_ss h m s.
Proof.
  intros (Hh & Hm & Hs). unfold time_str, Spec.hh_mm_ss.
  by rewrite !format_02d_two_digits by lia.
Qed.

(** C5: for every valid time the simple style produces exactly one line,
    the zero-padded 24-hour string HH:MM:SS. *)
Theorem C5_simple_one_line (h m s : Z) (Hv : Spec.valid_time h m s) :
  draw_simple_clock h m s = [Spec.hh_mm_ss h m s]
  /\ length (draw_simple_clock h m s) = 1%nat
  /\ forall st, current_style st = 1 ->
       get_clock_display (h, m, s) st = Some [Spec.hh_mm_ss h m s].
Proof.
  assert (draw_simple_clock h m s = [Spec.hh_mm_ss h m s]) as Hd.
  { unfold draw_simple_clock. by rewrite time_str_valid. }
  repeat split; [done|].
  intros st Hst. unfold get_clock_display. rewrite Hst.
  change (Py.index styles 1) with (Some "simple"). simpl. by rewrite Hd.
Qed.

Lemma C5_simple_one_line_witness :
  draw_simple_clock 7 5 9 = ["07:05:09"].
Proof.
  exact (proj1 (C5_simple_one_line 7 5 9
                  ltac:(unfold Spec.valid_time; lia))).
Defined.

(** ** The binary style *)

Lemma draw_binary_clock_lines (h m s : Z) :
  draw_binary_clock h m s
  = [binary_line "H " (h mod 24); ruler; "";
     binary_line "M " m; ruler; "";
     binary_line "S " s; ruler].
Proof. reflexivity. Qed.

Lemma prefix_append (p a b : string) :
  String.prefix p a = true -> String.prefix p (a +:+ b) = true.
Proof.
  revert p. induction a as [|x a IH]; intros [|y p]; simpl; try done.
  - by destruct b.
  - destruct (ascii_dec y x); [apply IH | done].
Qed.

Lemma add_bits_prefix (p : string) (bits : list ascii) :
  forall line, String.prefix p line = true ->
               String.prefix p (add_bits line bits) = true.
Proof.
  induction bits as [|bit bits IH]; intros line Hp; simpl; [done|].
  by apply IH, prefix_append.
Qed.

Lemma binary_line_label (label : string) (value : Z) :
  String.prefix label (binary_line label value) = true.
Proof.
  apply add_bits_prefix. induction label as [|c l IH]; simpl; [done|].
  by destruct (ascii_dec c c).
Qed.

(** C2, as stated, fails: the line after a value line is not the text
    "6 5 4 3 2 1". *)
Lemma C2_single_space_ruler_refuted :
  draw_binary_clock 0 0 0 !! 1%nat <> Some "6 5 4 3 2 1".
Proof. vm_compute. discriminate. Qed.

(** C2, amended: in the binary frame each of the three labelled value lines
    is immediately followed by the ruler line "  6  5  4  3  2  1": two
    leading spaces, then the digits 6 down to 1 separated by two spaces. *)
Theorem C2_binary_ruler (h m s : Z) :
  ruler = "  6  5  4  3  2  1"
  /\ exists hours_line minutes_line seconds_line,
      draw_binary_clock h m s
      = [hours_line; "  6  5  4  3  2  1"; "";
         minutes_line; "  6  5  4  3  2  1"; "";
         seconds_line; "  6  5  4  3  2  1"]
      /\ String.prefix "H " hours_line = true
      /\ String.prefix "M " minutes_line = true
      /\ String.prefix "S " seconds_line = true.
Proof.
  split; [reflexivity|].
  exists (binary_line "H " (h mod 24)), (binary_line "M " m), (binary_line "S " s).
  split; [apply draw_binary_clock_lines|].
  repeat split; by apply binary_line_label.
Qed.

Lemma binary_line_decodes (v : Z) :
  0 <= v < 0 + 64 ->
  Forall (fun label =>
            length (Spec.dot_pattern (binary_line label v)) = 6%nat
            /\ Spec.msb_first (Spec.dot_pattern (binary_line label v)) = v)
         ["H "; "M "; "S "].
Proof.
  revert v.
  apply (range_check
           (fun v => Forall (fun label =>
              length (Spec.dot_pattern (binary_line label v)) = 6%nat
              /\ Spec.msb_first (Spec.dot_pattern (binary_line label v)) = v)
              ["H "; "M "; "S "])).
  by vm_compute.
Qed.

(** C4: for every valid time the binary style produces exactly 8 lines, and
    the dots of line 1, read as a 6-bit number with the most significant bit
    first, give [h mod 24]; those of line 4 give [m], those of line 7 [s]. *)
Theorem C4_binary_decodes (h m s : Z) (Hv : Spec.valid_time h m s) :
  length (draw_binary_clock h m s) = 8%nat
  /\ exists line1 line4 line7,
      draw_binary_clock h m s !! 0%nat = Some line1
      /\ draw_binary_clock h m s !! 3%nat = Some line4
      /\ draw_binary_clock h m s !! 6%nat = Some line7
      /\ length (Spec.dot_pattern line1) = 6%nat
      /\ Spec.msb_first (Spec.dot_pattern line1) = h mod 24
      /\ length (Spec.dot_pattern line4) = 6%nat
      /\ Spec.msb_first (Spec.dot_pattern line4) = m
      /\ length (Spec.dot_pattern line7) = 6%nat
      /\ Spec.msb_first (Spec.dot_pattern line7) = s.
Proof.
  destruct Hv as (Hh & Hm & Hs).
  rewrite draw_binary_clock_lines. split; [reflexivity|].
  eexists _, _, _. do 3 (split; [reflexivity|]).
  assert (0 <= h mod 24 < 0 + 64) as Hh' by (Z.div_mod_to_equations; lia).
  pose proof (binary_line_decodes (h mod 24) Hh') as Fh.
  pose proof (binary_line_decodes m ltac:(lia)) as Fm.
  pose proof (binary_line_decodes s ltac:(lia)) as Fs.
  rewrite !Forall_cons in Fh, Fm, Fs.
  destruct Fh as ([? ?] & _ & _), Fm as (_ & [? ?] & _), Fs as (_ & _ & [? ?] & _).
  by repeat split.
Qed.

Lemma C4_binary_decodes_witness :
  length (draw_binary_clock 23 59 7) = 8%nat
  /\ Spec.msb_first (Spec.dot_pattern "M ● ● ● ○ ● ● ") = 59.
Proof.
  destruct (C4_binary_decodes 23 59 7 ltac:(unfold Spec.valid_time; lia))
    as (Hlen & l1 & l4 & l7 & _ & H4 & _ & _ & _ & _ & Hm & _).
  split; [exact Hlen|].
  vm_compute in H4. injection H4 as <-. exact Hm.
Defined.

(** ** The digital style *)

Lemma append_assoc (a b c : string) : (a +:+ b) +:+ c = a +:+ (b +:+ c).
Proof.
  induction a as [|x a IH]; [done|].
  change (String x ((a +:+ b) +:+ c) = String x (a +:+ (b +:+ c))).
  by f_equal.
Qed.

Lemma append_empty_r (a : string) : a +:+ "" = a.
Proof.
  induction a as [|x a IH]; [done|].
  change (String x (a +:+ "") = String x a). by f_equal.
Qed.

(** Every glyph of the table has six rows. *)
Lemma digits_six_rows :
  map_Forall (fun _ rows => length rows = 6%nat) digits.
Proof. apply (bool_decide_unpack _). by vm_compute. Qed.

Lemma char_lines_rows (c : ascii) :
  is_Some (digits !! c) ->
  char_lines c = Some (map (fun i => Spec.glyph_row i c) (seq 0 6)).
Proof.
  intros [rows Hrows]. unfold char_lines, Spec.glyph_row. rewrite Hrows.
  destruct (digits !! "0"%char) eqn:E0; [|vm_compute in E0; discriminate].
  pose proof (digits_six_rows c rows Hrows) as Hlen. simpl in Hlen.
  do 6 (destruct rows as [|? rows]; [discriminate|]).
  destruct rows; [reflexivity | discriminate].
Qed.

(** One character of the time string: every line grows by the character's
    row and two spaces. *)
Lemma add_rows_six (l0 l1 l2 l3 l4 l5 r0 r1 r2 r3 r4 r5 : string) :
  add_rows [l0; l1; l2; l3; l4; l5] 0 [r0; r1; r2; r3; r4; r5]
  = Some [l0 +:+ r0 +:+ "  "; l1 +:+ r1 +:+ "  "; l2 +:+ r2 +:+ "  ";
          l3 +:+ r3 +:+ "  "; l4 +:+ r4 +:+ "  "; l5 +:+ r5 +:+ "  "].
Proof. reflexivity. Qed.

Lemma add_chars_trailed (cs : list ascii) :
  Forall (fun c => is_Some (digits !! c)) cs ->
  forall l0 l1 l2 l3 l4 l5 : string,
    add_chars [l0; l1; l2; l3; l4; l5] cs
    = Some [l0 +:+ Spec.trailed_line 0 cs; l1 +:+ Spec.trailed_line 1 cs;
            l2 +:+ Spec.trailed_line 2 cs; l3 +:+ Spec.trailed_line 3 cs;
            l4 +:+ Spec.trailed_line 4 cs; l5 +:+ Spec.trailed_line 5 cs].
Proof.
  induction 1 as [|c cs Hc _ IH]; intros l0 l1 l2 l3 l4 l5.
  - cbn [add_chars Spec.trailed_line]. by rewrite !append_empty_r.
  - cbn [add_chars Spec.trailed_line]. rewrite (char_lines_rows c Hc).
    cbn [map seq]. rewrite add_rows_six, IH.
    by rewrite !append_assoc.
Qed.

Lemma digit_in_table (d : Z) :
  0 <= d < 0 + 10 -> is_Some (digits !! Spec.digit d).
Proof.
  revert d. apply (range_check (fun d => is_Some (digits !! Spec.digit d))).
  by vm_compute.
Qed.

Lemma two_digits_in_table (n : Z) :
  0 <= n <= 99 ->
  is_Some (digits !! Spec.digit (n / 10))
  /\ is_Some (digits !! Spec.digit (n mod 10)).
Proof.
  intros Hn. split; apply digit_in_table; Z.div_mod_to_equations; lia.
Qed.

Lemma hh_mm_ss_in_table (h m s : Z) :
  Spec.valid_time h m s ->
  Forall (fun c => is_Some (digits !! c)) (Py.chars (Spec.hh_mm_ss h m s)).
Proof.
  intros (Hh & Hm & Hs).
  destruct (two_digits_in_table h) as [? ?]; [lia|].
  destruct (two_digits_in_table m) as [? ?]; [lia|].
  destruct (two_digits_in_table s) as [? ?]; [lia|].
  assert (is_Some (digits !! ":"%char))
    by (apply (bool_decide_unpack _); by vm_compute).
  change (Py.chars (Spec.hh_mm_ss h m s))
    with [Spec.digit (h / 10); Spec.digit (h mod 10); ":"%char;
          Spec.digit (m / 10); Spec.digit (m mod 10); ":"%char;
          Spec.digit (s / 10); Spec.digit (s mod 10)].
  by repeat constructor.
Qed.

(** C3, as stated, fails: the lines of the digital style are not the glyph
    rows with two spaces between consecutive characters only. *)
Lemma C3_no_trailing_separator_refuted :
  ~ exists lines,
      draw_digital_clock 0 0 0 = Some lines
      /\ length lines = 6%nat
      /\ forall i, (i < 6)%nat ->
           lines !! i
           = Some (Spec.separated_line i (Py.chars (Spec.hh_mm_ss 0 0 0))).
Proof.
  intros (lines & Hd & _ & Hi).
  specialize (Hi 0%nat ltac:(lia)).
  vm_compute in Hd. injection Hd as <-.
  vm_compute in Hi. discriminate.
Qed.

(** C3, amended: for every valid time the digital style produces exactly 6
    lines, where line [i] is the concatenation, over the characters of the
    zero-padded string HH:MM:SS in order, of row [i] of the character's
    glyph followed by two spaces, after the last character as well. *)
Theorem C3_digital_rows (h m s : Z) (Hv : Spec.valid_time h m s) :
  exists lines,
    draw_digital_clock h m s = Some lines
    /\ length lines = 6%nat
    /\ forall i, (i < 6)%nat ->
         lines !! i
         = Some (Spec.trailed_line i (Py.chars (Spec.hh_mm_ss h m s))).
Proof.
  unfold draw_digital_clock. rewrite (time_str_valid h m s Hv).
  change (replicate 6 "") with ["" +:+ ""; ""; ""; ""; ""; ""].
  rewrite (add_chars_trailed _ (hh_mm_ss_in_table h m s Hv)).
  eexists. split; [reflexivity|]. split; [reflexivity|].
  intros i Hi.
  do 6 (destruct i as [|i]; [reflexivity|]). lia.
Qed.

Lemma C3_digital_rows_witness :
  exists lines,
    draw_digital_clock 0 0 1 = Some lines
    /\ lines !! 1%nat
       = Some "█    █  █    █    ██    █    █  █    █    ██    █    █   ██     ".
Proof.
  destruct (C3_digital_rows 0 0 1 ltac:(unfold Spec.valid_time; lia))
    as (lines & Hd & _ & Hi).
  exists lines. split; [exact Hd|].
  rewrite (Hi 1%nat ltac:(lia)). reflexivity.
Defined.

(** ** Input handling and the display loop *)

Section Interaction.

Variables KEY_LEFT KEY_RIGHT : Z.

Abbreviation handle_input := (handle_input KEY_LEFT KEY_RIGHT).
Abbreviation tick := (tick KEY_LEFT KEY_RIGHT).
Abbreviation loop := (loop KEY_LEFT KEY_RIGHT).
Abbreviation NextStyle := (Spec.NextStyle KEY_LEFT KEY_RIGHT).
Abbreviation PreviousStyle := (Spec.PreviousStyle KEY_LEFT KEY_RIGHT).

Lemma next_style (st : AppState) :
  KEY_LEFT <> KEY_RIGHT ->
  NextStyle st
  = {| current_style := (current_style st + 1) mod 4;
       show_footer := show_footer st; running := running st |}.
Proof.
  intros Hne. unfold Spec.NextStyle, TockClock.handle_input.
  destruct (Z.eqb_spec KEY_RIGHT KEY_LEFT); [congruence|].
  by rewrite Z.eqb_refl.
Qed.

Lemma previous_style (st : AppState) :
  PreviousStyle st
  = {| current_style := (current_style st - 1) mod 4;
       show_footer := show_footer st; running := running st |}.
Proof.
  unfold Spec.PreviousStyle, TockClock.handle_input. by rewrite Z.eqb_refl.
Qed.

(** C7: from every style index 0-3, the next-style transition followed by
    the previous-style transition restores the state, and so do as many
    next-style transitions as there are styles (4). *)
Theorem C7_style_cycle (st : AppState)
  (Hkeys : KEY_LEFT <> KEY_RIGHT) (Hi : 0 <= current_style st <= 3) :
  length styles = 4%nat
  /\ PreviousStyle (NextStyle st) = st
  /\ Nat.iter (length styles) NextStyle st = st.
Proof.
  destruct st as [i f r]. simpl in Hi.
  split; [reflexivity|]. split.
  - rewrite previous_style, next_style by done. simpl. f_equal.
    Z.div_mod_to_equations; lia.
  - simpl. rewrite !next_style by done. simpl. f_equal.
    Z.div_mod_to_equations; lia.
Qed.

Lemma quit_stops (key : Z) (st : AppState) :
  Spec.quit_key key -> KEY_LEFT <> key -> KEY_RIGHT <> key ->
  handle_input key st
  = {| current_style := current_style st;
       show_footer := show_footer st; running := false |}.
Proof.
  intros Hq Hl Hr. unfold TockClock.handle_input.
  destruct (Z.eqb_spec key KEY_LEFT); [congruence|].
  destruct (Z.eqb_spec key KEY_RIGHT); [congruence|].
  by destruct Hq as [-> | ->].
Qed.

Lemma loop_stopped (inputs : list sample) (st : AppState) :
  running st = false -> loop inputs st = ([], st, Stopped).
Proof. intros Hr. destruct inputs; simpl; by rewrite Hr. Qed.

Lemma tick_once (i : sample) (st st' : AppState) (evs : list event) :
  tick i st = Some (evs, st') -> ticks evs = 1%nat.
Proof.
  unfold TockClock.tick. destruct (get_clock_display _ _); [|done].
  intros [= <- _]. unfold draw_footer. by destruct (negb (show_footer st)).
Qed.

(** The digital style cannot raise: a character without a glyph takes the
    glyph of 0, and every glyph has six rows. *)
Lemma char_lines_six (c : ascii) :
  exists r0 r1 r2 r3 r4 r5, char_lines c = Some [r0; r1; r2; r3; r4; r5].
Proof.
  unfold char_lines.
  destruct (digits !! "0"%char) as [zero|] eqn:E0;
    [|vm_compute in E0; discriminate].
  assert (length (default zero (digits !! c)) = 6%nat) as Hlen.
  { destruct (digits !! c) as [rows|] eqn:E; simpl.
    - exact (digits_six_rows c rows E).
    - exact (digits_six_rows _ zero E0). }
  destruct (default zero (digits !! c)) as [|r0 [|r1 [|r2 [|r3 [|r4 [|r5 [|]]]]]]];
    try discriminate.
  by eexists _, _, _, _, _, _.
Qed.

Lemma add_chars_total (cs : list ascii) :
  forall l0 l1 l2 l3 l4 l5 : string,
    is_Some (add_chars [l0; l1; l2; l3; l4; l5] cs).
Proof.
  induction cs as [|c cs IH]; intros l0 l1 l2 l3 l4 l5; [by eexists|].
  destruct (char_lines_six c) as (r0 & r1 & r2 & r3 & r4 & r5 & Hc).
  cbn [add_chars]. rewrite Hc, add_rows_six. apply IH.
Qed.

Lemma get_clock_display_total (now : Z * Z * Z) (st : AppState) :
  0 <= current_style st <= 3 -> is_Some (get_clock_display now st).
Proof.
  destruct now as [[h m] s]. intros Hi. unfold get_clock_display.
  assert (current_style st = 0 \/ current_style st = 1
          \/ current_style st = 2 \/ current_style st = 3)
    as [-> | [-> | [-> | ->]]] by lia.
  - apply add_chars_total.
  - by eexists.
  - by eexists.
  - by eexists.
Qed.

(** C8: from a running state the quit key sets [running] to false; a loop
    whose state is not running performs no tick; so the iteration in which
    the quit key is read is the last one, whatever input follows. *)
Theorem C8_quit_stops_loop (st : AppState) (key : Z)
  (Hrun : running st = true) (Hi : 0 <= current_style st <= 3)
  (Hq : Spec.quit_key key)
  (Hleft : KEY_LEFT <> key) (Hright : KEY_RIGHT <> key) :
  running (handle_input key st) = false
  /\ (forall inputs st', running st' = false ->
        loop inputs st' = ([], st', Stopped))
  /\ (forall now rest, exists evs,
        loop ({| now := now; key := key |} :: rest) st
        = (evs, handle_input key st, Stopped)
        /\ ticks evs = 1%nat).
Proof.
  assert (running (handle_input key st) = false) as Hstop
    by (by rewrite quit_stops).
  split; [done|]. split; [apply loop_stopped|].
  intros t rest.
  destruct (get_clock_display_total t st Hi) as [display_lines Hd].
  assert (exists evs, tick {| now := t; key := key |} st
                      = Some (evs, handle_input key st)) as [evs Ht].
  { unfold TockClock.tick. cbn [now TockClock.key]. rewrite Hd. by eexists. }
  exists evs. split; [|by eapply tick_once].
  cbn [TockClock.loop]. rewrite Hrun, Ht, (loop_stopped rest _ Hstop).
  by rewrite app_nil_r.
Qed.

(** Whatever way the loop is left, [run] ends by restoring the terminal. *)
Lemma run_restores_terminal (inputs : list sample) (st : AppState) :
  exists evs,
    (TockClock.run KEY_LEFT KEY_RIGHT inputs st).1.1
    = (evs ++ [NoCBreak; Keypad false; Echo; EndWin])%list.
Proof.
  unfold TockClock.run. destruct (loop inputs st) as [[evs st'] o].
  eexists. cbn [fst]. by rewrite app_assoc.
Qed.

End Interaction.

Lemma C7_style_cycle_witness :
  Spec.PreviousStyle 260 261 (Spec.NextStyle 260 261 init) = init
  /\ Nat.iter 4 (Spec.NextStyle 260 261) init = init.
Proof.
  exact (proj2 (C7_style_cycle 260 261 init ltac:(lia) ltac:(simpl; lia))).
Defined.

Lemma C8_quit_stops_loop_witness :
  running (handle_input 260 261 (Py.ord "q") init) = false.
Proof.
  exact (proj1 (C8_quit_stops_loop 260 261 init (Py.ord "q")
                  ltac:(reflexivity) ltac:(simpl; lia)
                  ltac:(left; reflexivity)
                  ltac:(vm_compute; discriminate)
                  ltac:(vm_compute; discriminate))).
Defined.

(** ** More on input handling *)

Section Keys.

Variables KEY_LEFT KEY_RIGHT : Z.

Abbreviation handle_input := (handle_input KEY_LEFT KEY_RIGHT).
Abbreviation NextStyle := (Spec.NextStyle KEY_LEFT KEY_RIGHT).
Abbreviation PreviousStyle := (Spec.PreviousStyle KEY_LEFT KEY_RIGHT).

(** The four branches of [handle_input] and the fall-through, as one case
    analysis on the key. *)
Lemma handle_input_cases (key : Z) (st : AppState) :
  (key = KEY_LEFT
   /\ handle_input key st
      = {| current_style := (current_style st - 1) mod 4;
           show_footer := show_footer st; running := running st |})
  \/ (key <> KEY_LEFT /\ key = KEY_RIGHT
      /\ handle_input key st
         = {| current_style := (current_style st + 1) mod 4;
              show_footer := show_footer st; running := running st |})
  \/ (key <> KEY_LEFT /\ key <> KEY_RIGHT /\ Spec.toggle_key key
      /\ handle_input key st
         = {| current_style := current_style st;
              show_footer := negb (show_footer st); running := running st |})
  \/ (key <> KEY_LEFT /\ key <> KEY_RIGHT /\ Spec.quit_key key
      /\ handle_input key st
         = {| current_style := current_style st;
              show_footer := show_footer st; running := false |})
  \/ (key <> KEY_LEFT /\ key <> KEY_RIGHT
      /\ ~ Spec.toggle_key key /\ ~ Spec.quit_key key
      /\ handle_input key st = st).
Proof.
  unfold TockClock.handle_input, Spec.toggle_key, Spec.quit_key.
  destruct (Z.eqb_spec key KEY_LEFT); [by left|]. right.
  destruct (Z.eqb_spec key KEY_RIGHT); [by left|]. right.
  destruct (Z.eqb_spec key (Py.ord "h")); [left; by auto|].
  destruct (Z.eqb_spec key (Py.ord "H")); [left; by auto|]. right.
  destruct (Z.eqb_spec key (Py.ord "q")); [left; by auto|].
  destruct (Z.eqb_spec key (Py.ord "Q")); [left; by auto|]. right.
  simpl. repeat split; try done; intros [?|?]; done.
Qed.

(** X1: the style index stays a valid index of [styles] under every key,
    and an arrow key brings any index, valid or not, into 0-3. *)
Theorem style_index_invariant (key : Z) (st : AppState) :
  (0 <= current_style st <= 3 ->
   0 <= current_style (handle_input key st) <= 3)
  /\ (key = KEY_LEFT \/ key = KEY_RIGHT ->
      0 <= current_style (handle_input key st) <= 3).
Proof.
  destruct (handle_input_cases key st)
    as [(? & ->) | [(? & ? & ->) | [(? & ? & ? & ->)
       | [(? & ? & ? & ->) | (? & ? & ? & ? & ->)]]]];
    simpl; split; intros; try lia;
    try (Z.div_mod_to_equations; lia).
Qed.

(** X2: the footer key is an involution: pressing [h] or [H] twice, in any
    mix of cases, restores the state. *)
Theorem toggle_footer_twice (k1 k2 : Z) (st : AppState)
  (H1 : Spec.toggle_key k1) (H2 : Spec.toggle_key k2)
  (Hleft : KEY_LEFT <> Py.ord "h" /\ KEY_LEFT <> Py.ord "H")
  (Hright : KEY_RIGHT <> Py.ord "h" /\ KEY_RIGHT <> Py.ord "H") :
  show_footer (handle_input k1 st) = negb (show_footer st)
  /\ handle_input k2 (handle_input k1 st) = st.
Proof.
  assert (forall k s, Spec.toggle_key k ->
            handle_input k s
            = {| current_style := current_style s;
                 show_footer := negb (show_footer s);
                 running := running s |}) as Ht.
  { intros k s Hk. unfold TockClock.handle_input.
    destruct (Z.eqb_spec k KEY_LEFT);
      [destruct Hk; subst; lia|].
    destruct (Z.eqb_spec k KEY_RIGHT);
      [destruct Hk; subst; lia|].
    by destruct Hk as [-> | ->]. }
  rewrite !Ht by done. simpl. split; [done|].
  destruct st as [i f r]. simpl. by rewrite negb_involutive.
Qed.

(** X3: a key that is no arrow and none of [h], [H], [q], [Q] -- the -1 of
    an empty poll among them -- leaves the state unchanged. *)
Theorem unbound_key_ignored (key : Z) (st : AppState)
  (Hl : key <> KEY_LEFT) (Hr : key <> KEY_RIGHT)
  (Ht : ~ Spec.toggle_key key) (Hq : ~ Spec.quit_key key) :
  handle_input key st = st.
Proof.
  destruct (handle_input_cases key st)
    as [(? & _) | [(_ & ? & _) | [(_ & _ & ? & _)
       | [(_ & _ & ? & _) | (_ & _ & _ & _ & ->)]]]]; done.
Qed.

(** X4: the left arrow undoes the right arrow in the other order too: from
    every style index 0-3, previous then next restores the state, four
    previous steps come back to it, and previous wraps from 0 to 3. *)
Theorem previous_style_cycle (st : AppState)
  (Hkeys : KEY_LEFT <> KEY_RIGHT) (Hi : 0 <= current_style st <= 3) :
  NextStyle (PreviousStyle st) = st
  /\ Nat.iter 4 PreviousStyle st = st
  /\ (current_style st = 0 -> current_style (PreviousStyle st) = 3).
Proof.
  destruct st as [i f r]. simpl in Hi.
  repeat split.
  - rewrite next_style, previous_style by done. simpl. f_equal.
    Z.div_mod_to_equations; lia.
  - simpl. rewrite !previous_style. simpl. f_equal.
    Z.div_mod_to_equations; lia.
  - simpl. intros ->. by rewrite previous_style.
Qed.

(** X5: no key sets [running] back to true, and the only keys that clear it
    are [q] and [Q]; the style and the footer flag survive the quit. *)
Theorem running_only_cleared_by_quit (key : Z) (st : AppState) :
  (running st = false -> running (handle_input key st) = false)
  /\ (running st = true -> running (handle_input key st) = false ->
      Spec.quit_key key
      /\ current_style (handle_input key st) = current_style st
      /\ show_footer (handle_input key st) = show_footer st).
Proof.
  destruct (handle_input_cases key st)
    as [(? & ->) | [(? & ? & ->) | [(? & ? & ? & ->)
       | [(? & ? & ? & ->) | (? & ? & ? & ? & ->)]]]];
    simpl; split; intros; try done; congruence.
Qed.

End Keys.

Lemma toggle_footer_twice_witness :
  TockClock.handle_input 260 261 (Py.ord "H")
    (TockClock.handle_input 260 261 (Py.ord "h") init) = init.
Proof.
  exact (proj2 (toggle_footer_twice 260 261 (Py.ord "h") (Py.ord "H") init
                  ltac:(left; reflexivity) ltac:(right; reflexivity)
                  ltac:(vm_compute; split; discriminate)
                  ltac:(vm_compute; split; discriminate))).
Defined.

Lemma unbound_key_ignored_witness :
  TockClock.handle_input 260 261 (-1) init = init.
Proof.
  apply unbound_key_ignored; try lia;
    intros [H|H]; vm_compute in H; discriminate.
Defined.

Lemma previous_style_cycle_witness :
  current_style (Spec.PreviousStyle 260 261 init) = 3.
Proof.
  exact (proj2 (proj2 (previous_style_cycle 260 261 init
                         ltac:(lia) ltac:(simpl; lia))) eq_refl).
Defined.

Lemma style_index_invariant_witness :
  0 <= current_style (TockClock.handle_input 260 261 260 init) <= 3.
Proof.
  exact (proj1 (style_index_invariant 260 261 260 init) ltac:(simpl; lia)).
Defined.

Lemma running_only_cleared_by_quit_witness :
  Spec.quit_key (Py.ord "Q").
Proof.
  exact (proj1 (proj2 (running_only_cleared_by_quit 260 261 (Py.ord "Q") init)
                  eq_refl eq_refl)).
Defined.

(** ** More on the display loop *)

Section Loop.

Variables KEY_LEFT KEY_RIGHT : Z.

Abbreviation handle_input := (handle_input KEY_LEFT KEY_RIGHT).
Abbreviation loop := (loop KEY_LEFT KEY_RIGHT).

Lemma ticks_app (evs evs' : list event) :
  ticks (evs ++ evs') = (ticks evs + ticks evs')%nat.
Proof.
  induction evs as [|e evs IH]; [done|].
  destruct e; simpl; by rewrite ?IH.
Qed.

Lemma style_index_kept (key : Z) (st : AppState) :
  0 <= current_style st <= 3 ->
  0 <= current_style (handle_input key st) <= 3.
Proof.
  intros Hi.
  destruct (handle_input_cases KEY_LEFT KEY_RIGHT key st)
    as [(? & ->) | [(? & ? & ->) | [(? & ? & ? & ->)
       | [(? & ? & ? & ->) | (? & ? & ? & ? & ->)]]]];
    simpl; try lia; Z.div_mod_to_equations; lia.
Qed.

Lemma running_kept (key : Z) (st : AppState) :
  running st = true -> ~ Spec.quit_key key ->
  running (handle_input key st) = true.
Proof.
  intros Hr Hq.
  destruct (handle_input_cases KEY_LEFT KEY_RIGHT key st)
    as [(? & ->) | [(? & ? & ->) | [(? & ? & ? & ->)
       | [(? & ? & ? & ->) | (? & ? & ? & ? & ->)]]]]; done.
Qed.

(** One iteration from a state with a valid style never raises, counts as
    one tick, and leaves the state that [handle_input] gives. *)
Lemma tick_total (i : sample) (st : AppState) :
  0 <= current_style st <= 3 ->
  exists evs,
    TockClock.tick KEY_LEFT KEY_RIGHT i st
    = Some (evs, handle_input (key i) st)
    /\ ticks evs = 1%nat.
Proof.
  intros Hi.
  destruct (get_clock_display_total (now i) st Hi) as [display_lines Hd].
  assert (exists evs, TockClock.tick KEY_LEFT KEY_RIGHT i st
                      = Some (evs, handle_input (key i) st)) as [evs Ht].
  { unfold TockClock.tick. rewrite Hd. by eexists. }
  exists evs. split; [done | by eapply tick_once].
Qed.

Lemma loop_cons (i : sample) (rest : list sample) (st st' : AppState)
  (evs : list event) :
  running st = true ->
  TockClock.tick KEY_LEFT KEY_RIGHT i st = Some (evs, st') ->
  loop (i :: rest) st
  = ((evs ++ (loop rest st').1.1)%list, (loop rest st').1.2, (loop rest st').2).
Proof.
  intros Hr Ht. cbn [TockClock.loop]. rewrite Hr, Ht.
  by destruct (loop rest st') as [[evs' st''] o].
Qed.

(** X6: started with a valid style index, the loop never ends on an
    exception, whatever the times and keys it reads; it keeps the style
    index valid, begins at most one iteration per sample, and ends stopped
    exactly when [running] is false. *)
Theorem loop_never_raises (inputs : list sample) (st : AppState)
  (Hi : 0 <= current_style st <= 3) :
  (loop inputs st).2 <> Raised
  /\ 0 <= current_style (loop inputs st).1.2 <= 3
  /\ (ticks (loop inputs st).1.1 <= length inputs)%nat
  /\ ((loop inputs st).2 = Stopped <-> running (loop inputs st).1.2 = false).
Proof.
  revert st Hi. induction inputs as [|i rest IH]; intros st Hi.
  - cbn [TockClock.loop fst snd ticks length].
    destruct (running st) eqn:Hr; repeat split; first [done | lia].
  - destruct (running st) eqn:Hr.
    + destruct (tick_total i st Hi) as (evs & Ht & Hevs).
      rewrite (loop_cons i rest st _ evs Hr Ht).
      destruct (IH _ (style_index_kept (key i) st Hi)) as (? & ? & ? & ?).
      cbn [fst snd]. rewrite ticks_app, Hevs. simpl length.
      repeat split; first [done | lia | tauto].
    + rewrite loop_stopped by done. cbn [fst snd ticks].
      repeat split; first [done | lia | tauto].
Qed.

(** X7: while no quit key is read the loop goes on: from a running state
    it performs exactly one iteration per sample and is still running when
    the samples are used up. *)
Theorem loop_runs_without_quit (inputs : list sample) (st : AppState)
  (Hr : running st = true) (Hi : 0 <= current_style st <= 3)
  (Hkeys : Forall (fun i => ~ Spec.quit_key (key i)) inputs) :
  (loop inputs st).2 = Pending
  /\ ticks (loop inputs st).1.1 = length inputs
  /\ running (loop inputs st).1.2 = true.
Proof.
  revert st Hr Hi. induction Hkeys as [|i rest Hq _ IH]; intros st Hr Hi.
  - cbn [TockClock.loop fst snd ticks length]. by rewrite Hr.
  - destruct (tick_total i st Hi) as (evs & Ht & Hevs).
    rewrite (loop_cons i rest st _ evs Hr Ht).
    destruct (IH _ (running_kept (key i) st Hr Hq)
                 (style_index_kept (key i) st Hi)) as (? & ? & ?).
    cbn [fst snd]. rewrite ticks_app, Hevs. simpl length.
    repeat split; first [done | lia | tauto].
Qed.

(** X8: the loop ends with the iteration that reads the first quit key:
    after [n] samples without one and the sample that carries it, [n + 1]
    iterations have run, the loop is stopped, and the samples that follow
    are never read. *)
Theorem loop_stops_at_first_quit (pre rest : list sample) (q : sample)
  (st : AppState)
  (Hr : running st = true) (Hi : 0 <= current_style st <= 3)
  (Hpre : Forall (fun i => ~ Spec.quit_key (key i)) pre)
  (Hq : Spec.quit_key (key q))
  (Hleft : KEY_LEFT <> key q) (Hright : KEY_RIGHT <> key q) :
  loop (pre ++ q :: rest) st = loop (pre ++ [q]) st
  /\ (loop (pre ++ q :: rest) st).2 = Stopped
  /\ ticks (loop (pre ++ q :: rest) st).1.1 = S (length pre).
Proof.
  revert st Hr Hi. induction Hpre as [|i pre Hn _ IH]; intros st Hr Hi.
  - simpl app.
    destruct (tick_total q st Hi) as (evs & Ht & Hevs).
    rewrite !(loop_cons q _ st _ evs Hr Ht).
    assert (running (handle_input (key q) st) = false) as Hstop
      by (by rewrite quit_stops).
    rewrite !loop_stopped by done.
    cbn [fst snd]. by rewrite app_nil_r, Hevs.
  - simpl app.
    destruct (tick_total i st Hi) as (evs & Ht & Hevs).
    rewrite !(loop_cons i _ st _ evs Hr Ht).
    destruct (IH _ (running_kept (key i) st Hr Hn)
                 (style_index_kept (key i) st Hi)) as (-> & ? & ?).
    cbn [fst snd]. rewrite ticks_app, Hevs. simpl length.
    repeat split; first [done | lia | tauto].
Qed.

End Loop.

Lemma loop_never_raises_witness :
  (TockClock.loop 260 261
     [{| now := (25, 61, -3); key := 261 |}; {| now := (-1, 0, 0); key := 7 |}]
     init).2 <> Raised.
Proof.
  exact (proj1 (loop_never_raises 260 261
     [{| now := (25, 61, -3); key := 261 |}; {| now := (-1, 0, 0); key := 7 |}]
     init ltac:(simpl; lia))).
Defined.

Lemma loop_runs_without_quit_witness :
  ticks (TockClock.loop 260 261
           [{| now := (9, 5, 0); key := -1 |};
            {| now := (9, 5, 1); key := Py.ord "h" |};
            {| now := (9, 5, 2); key := 260 |}] init).1.1 = 3%nat.
Proof.
  refine (proj1 (proj2 (loop_runs_without_quit 260 261 _ init
                          eq_refl ltac:(simpl; lia) _))).
  repeat constructor; intros [H|H]; vm_compute in H; discriminate.
Defined.

Lemma loop_stops_at_first_quit_witness :
  ticks (TockClock.loop 260 261
           ([{| now := (9, 5, 0); key := 261 |}]
              ++ {| now := (9, 5, 1); key := Py.ord "q" |}
              :: [{| now := (9, 5, 2); key := 261 |}]) init).1.1 = 2%nat.
Proof.
  refine (proj2 (proj2 (loop_stops_at_first_quit 260 261 _ _ _ init
                          eq_refl ltac:(simpl; lia) _ _ _ _))).
  - repeat constructor; intros [H|H]; vm_compute in H; discriminate.
  - left; reflexivity.
  - vm_compute; discriminate.
  - vm_compute; discriminate.
Defined.

(** ** More on the renderers *)

Lemma hours_word_periodic (h k : Z) : hours_word (h + 12 * k) = hours_word h.
Proof.
  unfold hours_word.
  replace ((h + 12 * k) mod 12) with (h mod 12); [done|].
  rewrite (Z.mul_comm 12 k). by rewrite Z.mod_add.
Qed.

(** X9: the words style does not look at the seconds and shows the hour
    modulo 12: times that differ by a multiple of twelve hours, or in their
    seconds only, give the same line. *)
Theorem words_clock_twelve_hour_period (h m s s' k : Z) :
  draw_words_clock (h + 12 * k) m s' = draw_words_clock h m s.
Proof. unfold draw_words_clock. by rewrite hours_word_periodic. Qed.

(** The line of the words style, as a function of hour and minute. *)
Lemma draw_words_clock_line (h m s : Z) :
  draw_words_clock h m s
  = [hours_word h +:+ (if m =? 0 then " O'CLOCK"
                       else " " +:+ _minutes_to_words m)].
Proof. unfold draw_words_clock. by destruct (m =? 0). Qed.

Lemma append_cons (c : ascii) (a b : string) :
  String c a +:+ b = String c (a +:+ b).
Proof. reflexivity. Qed.

(** Two strings cut at their first space agree piece by piece. *)
Lemma split_at_space (a a' b b' : string) :
  Spec.has_char " " a = false -> Spec.has_char " " a' = false ->
  a +:+ String " " b = a' +:+ String " " b' ->
  a = a' /\ b = b'.
Proof.
  revert a'. induction a as [|c a IH]; intros [|c' a'] Ha Ha' E.
  - by injection E.
  - rewrite append_cons in E. injection E as <- _.
    by vm_compute in Ha'.
  - rewrite append_cons in E. injection E as -> _.
    by vm_compute in Ha.
  - rewrite !append_cons in E. injection E as -> E.
    simpl in Ha, Ha'. apply orb_false_elim in Ha as [_ Ha].
    apply orb_false_elim in Ha' as [_ Ha'].
    destruct (IH a' Ha Ha' E) as [-> ->]. done.
Qed.

(** What follows the hour word and its space. *)
Lemma words_line_split (h m s : Z) :
  draw_words_clock h m s
  = [hours_word h
       +:+ String " " (if m =? 0 then "O'CLOCK" else _minutes_to_words m)].
Proof. unfold draw_words_clock. by destruct (m =? 0). Qed.

Lemma hours_words_distinct (h : Z) :
  0 <= h < 0 + 12 ->
  Spec.has_char " " (hours_word h) = false
  /\ Forall (fun h' => hours_word h = hours_word h' -> h = h') (seqZ 0 12).
Proof.
  revert h.
  apply (range_check (fun h =>
    Spec.has_char " " (hours_word h) = false
    /\ Forall (fun h' => hours_word h = hours_word h' -> h = h') (seqZ 0 12))).
  by vm_compute.
Qed.

Lemma minute_phrases_distinct (m : Z) :
  0 <= m < 0 + 60 ->
  Forall (fun m' =>
            (if m =? 0 then "O'CLOCK" else _minutes_to_words m)
            = (if m' =? 0 then "O'CLOCK" else _minutes_to_words m') ->
            m = m') (seqZ 0 60).
Proof.
  revert m.
  apply (range_check (fun m =>
    Forall (fun m' =>
              (if m =? 0 then "O'CLOCK" else _minutes_to_words m)
              = (if m' =? 0 then "O'CLOCK" else _minutes_to_words m') ->
              m = m') (seqZ 0 60))).
  by vm_compute.
Qed.

(** X10: the line of the words style tells the hour modulo 12 and the
    minute, numerals and all: two valid times give the same line exactly
    when they agree in both. *)
Theorem words_clock_determines_time (h m s h' m' s' : Z)
  (Hv : Spec.valid_time h m s) (Hv' : Spec.valid_time h' m' s') :
  draw_words_clock h m s = draw_words_clock h' m' s'
  <-> h mod 12 = h' mod 12 /\ m = m'.
Proof.
  destruct Hv as (Hh & Hm & _), Hv' as (Hh' & Hm' & _).
  assert (forall a, hours_word a = hours_word (a mod 12)) as Hmod.
  { intros a. rewrite (Z.div_mod a 12) at 1 by lia.
    rewrite Z.add_comm. apply hours_word_periodic. }
  split.
  - rewrite !words_line_split. intros [= E].
    rewrite (Hmod h), (Hmod h') in E.
    assert (0 <= h mod 12 < 0 + 12) as Hr by (Z.div_mod_to_equations; lia).
    assert (0 <= h' mod 12 < 0 + 12) as Hr' by (Z.div_mod_to_equations; lia).
    destruct (hours_words_distinct _ Hr) as [Hs Hd].
    destruct (hours_words_distinct _ Hr') as [Hs' _].
    destruct (split_at_space _ _ _ _ Hs Hs' E) as [Eh Em].
    rewrite Forall_seqZ in Hd. split; [apply Hd; [lia | done]|].
    pose proof (minute_phrases_distinct m ltac:(lia)) as Hmd.
    rewrite Forall_seqZ in Hmd. apply Hmd; [lia | done].
  - intros [Eh ->]. unfold draw_words_clock.
    by rewrite (Hmod h), (Hmod h'), Eh.
Qed.

Lemma words_clock_determines_time_witness :
  draw_words_clock 1 13 0 <> draw_words_clock 1 14 0.
Proof.
  intros E.
  apply (words_clock_determines_time 1 13 0 1 14 0
           ltac:(unfold Spec.valid_time; lia)
           ltac:(unfold Spec.valid_time; lia)) in E.
  destruct E as [_ E]. discriminate E.
Defined.

(** *** Lengths *)

Lemma len_append (a b : string) : Py.len (a +:+ b) = Py.len a + Py.len b.
Proof.
  induction a as [|c a IH]; [done|].
  rewrite append_cons. cbn [Py.len]. rewrite IH. lia.
Qed.

Lemma len_nonneg (a : string) : 0 <= Py.len a.
Proof.
  induction a as [|c a IH]; cbn [Py.len]; [lia|].
  destruct (Py.is_continuation c); lia.
Qed.

Lemma len_spaces (k : nat) : Py.len (Py.spaces k) = Z.of_nat k.
Proof. induction k as [|k IH]; cbn [Py.spaces Py.len]; [done|]. simpl. lia. Qed.

Lemma chars_length (a : string) : length (Py.chars a) = String.length a.
Proof. induction a as [|c a IH]; simpl; [done | by rewrite IH]. Qed.

(** *** The digital style, any time *)

(** Every row of every glyph is six characters wide. *)
Lemma digits_six_wide :
  map_Forall (fun _ rows => Forall (fun row => Py.len row = 6) rows) digits.
Proof. apply (bool_decide_unpack _). by vm_compute. Qed.

Lemma char_lines_shape (c : ascii) :
  exists r0 r1 r2 r3 r4 r5,
    char_lines c = Some [r0; r1; r2; r3; r4; r5]
    /\ Forall (fun row => Py.len row = 6) [r0; r1; r2; r3; r4; r5].
Proof.
  destruct (char_lines_six c) as (r0 & r1 & r2 & r3 & r4 & r5 & Hc).
  exists r0, r1, r2, r3, r4, r5. split; [done|].
  revert Hc. unfold char_lines.
  destruct (digits !! "0"%char) as [zero|] eqn:E0; [|done].
  intros [= <-]. destruct (digits !! c) as [rows|] eqn:E; simpl.
  - exact (digits_six_wide c rows E).
  - exact (digits_six_wide _ zero E0).
Qed.

Lemma add_chars_widths (cs : list ascii) :
  forall (w : Z) (l0 l1 l2 l3 l4 l5 : string),
    Forall (fun line => Py.len line = w) [l0; l1; l2; l3; l4; l5] ->
    exists k0 k1 k2 k3 k4 k5,
      add_chars [l0; l1; l2; l3; l4; l5] cs = Some [k0; k1; k2; k3; k4; k5]
      /\ Forall (fun line => Py.len line = w + 8 * Z.of_nat (length cs))
                [k0; k1; k2; k3; k4; k5].
Proof.
  induction cs as [|c cs IH]; intros w l0 l1 l2 l3 l4 l5 Hw.
  - exists l0, l1, l2, l3, l4, l5. split; [done|].
    eapply Forall_impl; [exact Hw|]. simpl. intros; lia.
  - destruct (char_lines_shape c) as (r0 & r1 & r2 & r3 & r4 & r5 & Hc & Hr).
    cbn [add_chars]. rewrite Hc, add_rows_six.
    destruct (IH (w + 8) (l0 +:+ r0 +:+ "  ") (l1 +:+ r1 +:+ "  ")
                 (l2 +:+ r2 +:+ "  ") (l3 +:+ r3 +:+ "  ")
                 (l4 +:+ r4 +:+ "  ") (l5 +:+ r5 +:+ "  "))
      as (k0 & k1 & k2 & k3 & k4 & k5 & Hk & Hlen).
    { rewrite !Forall_cons in Hw, Hr. rewrite !Forall_cons.
      rewrite !len_append.
      change (Py.len "  ") with 2.
      destruct Hw as (-> & -> & -> & -> & -> & -> & _).
      destruct Hr as (-> & -> & -> & -> & -> & -> & _).
      repeat split; try lia. constructor. }
    exists k0, k1, k2, k3, k4, k5. split; [done|].
    eapply Forall_impl; [exact Hlen|]. simpl. intros; lia.
Qed.

(** X11: for every time whatsoever the digital style returns six lines of
    one and the same width, eight columns per character of the time string;
    for a valid time that is a block of 6 by 64. *)
Theorem digital_frame_rectangle (h m s : Z) :
  exists lines,
    draw_digital_clock h m s = Some lines
    /\ length lines = 6%nat
    /\ Forall (fun line =>
                 Py.len line = 8 * Z.of_nat (String.length (time_str h m s)))
              lines
    /\ (Spec.valid_time h m s -> Forall (fun line => Py.len line = 64) lines).
Proof.
  unfold draw_digital_clock.
  destruct (add_chars_widths (Py.chars (time_str h m s)) 0 "" "" "" "" "" "")
    as (k0 & k1 & k2 & k3 & k4 & k5 & Hk & Hlen).
  { by repeat constructor. }
  change (replicate 6 "") with ["" ; ""; ""; ""; ""; ""]. rewrite Hk.
  rewrite chars_length in Hlen.
  eexists. split; [done|]. split; [done|]. split; [exact Hlen|].
  intros Hv. rewrite (time_str_valid h m s Hv) in Hlen.
  exact Hlen.
Qed.

Lemma digital_frame_rectangle_witness :
  exists lines,
    draw_digital_clock 23 59 59 = Some lines
    /\ Forall (fun line => Py.len line = 64) lines.
Proof.
  destruct (digital_frame_rectangle 23 59 59) as (lines & Hd & _ & _ & Hw).
  exists lines. split; [exact Hd|].
  apply Hw. unfold Spec.valid_time. lia.
Defined.

Lemma format_02d_small (h : Z) :
  1 <= h < 1 + 9 ->
  Py.format_02d h = String "0" (String (Spec.digit h) "")
  /\ Py.format_02d (- h) = String "-" (String (Spec.digit h) "").
Proof.
  revert h.
  apply (range_check (fun h =>
    Py.format_02d h = String "0" (String (Spec.digit h) "")
    /\ Py.format_02d (- h) = String "-" (String (Spec.digit h) ""))).
  by vm_compute.
Qed.

(** X12: a character without a glyph is drawn as a 0: the minus sign of a
    one-digit negative hour takes the place of the leading zero, and the
    frame is that of the hour without its sign. *)
Theorem digital_missing_glyph_is_zero (h m s : Z) (Hh : 1 <= h <= 9) :
  digits !! "-"%char = None
  /\ char_lines "-" = digits !! "0"%char
  /\ draw_digital_clock (- h) m s = draw_digital_clock h m s.
Proof.
  split; [reflexivity|]. split; [reflexivity|].
  unfold draw_digital_clock, time_str.
  destruct (format_02d_small h ltac:(lia)) as [-> ->].
  reflexivity.
Qed.

Lemma digital_missing_glyph_is_zero_witness :
  draw_digital_clock (-7) 30 0 = draw_digital_clock 7 30 0.
Proof.
  exact (proj2 (proj2 (digital_missing_glyph_is_zero 7 30 0 ltac:(lia)))).
Defined.

(** *** The simple style read back *)

Lemma two_digits_value (n : Z) :
  0 <= n < 0 + 100 ->
  10 * Spec.digit_value (Spec.digit (n / 10))
  + Spec.digit_value (Spec.digit (n mod 10)) = n.
Proof.
  revert n.
  apply (range_check (fun n =>
    10 * Spec.digit_value (Spec.digit (n / 10))
    + Spec.digit_value (Spec.digit (n mod 10)) = n)).
  by vm_compute.
Qed.

Lemma two_digits_len (n : Z) :
  0 <= n < 0 + 100 -> Py.len (Spec.two_digits n) = 2.
Proof.
  revert n. apply (range_check (fun n => Py.len (Spec.two_digits n) = 2)).
  by vm_compute.
Qed.

(** X13: the line of the simple style is eight characters long and reads
    back to the time it was made from, so that two valid times with the
    same line are the same time. *)
Theorem simple_clock_round_trip (h m s : Z) (Hv : Spec.valid_time h m s) :
  exists line,
    draw_simple_clock h m s = [line]
    /\ Py.len line = 8
    /\ Spec.parse_hh_mm_ss line = Some (h, m, s)
    /\ forall h' m' s',
         Spec.valid_time h' m' s' ->
         draw_simple_clock h' m' s' = [line] -> (h', m', s') = (h, m, s).
Proof.
  assert (forall a b c, Spec.valid_time a b c ->
            Spec.parse_hh_mm_ss (time_str a b c) = Some (a, b, c)) as Hparse.
  { intros a b c Hv'. rewrite (time_str_valid a b c Hv').
    destruct Hv' as (Ha & Hb & Hc).
    change (Spec.parse_hh_mm_ss (Spec.hh_mm_ss a b c))
      with (Some (10 * Spec.digit_value (Spec.digit (a / 10))
                  + Spec.digit_value (Spec.digit (a mod 10)),
                  10 * Spec.digit_value (Spec.digit (b / 10))
                  + Spec.digit_value (Spec.digit (b mod 10)),
                  10 * Spec.digit_value (Spec.digit (c / 10))
                  + Spec.digit_value (Spec.digit (c mod 10)))).
    by rewrite !two_digits_value by lia. }
  exists (time_str h m s). split; [done|]. split; [|split; [by apply Hparse|]].
  - rewrite (time_str_valid h m s Hv). unfold Spec.hh_mm_ss.
    destruct Hv as (Hh & Hm & Hs).
    by rewrite !len_append, !two_digits_len by lia.
  - intros h' m' s' Hv' [= E].
    pose proof (Hparse h' m' s' Hv') as E'. rewrite E, (Hparse h m s Hv) in E'.
    by injection E' as -> -> ->.
Qed.

Lemma simple_clock_round_trip_witness :
  Spec.parse_hh_mm_ss "23:59:07" = Some (23, 59, 7).
Proof.
  destruct (simple_clock_round_trip 23 59 7
              ltac:(unfold Spec.valid_time; lia)) as (line & Hd & _ & Hp & _).
  injection Hd as <-. exact Hp.
Defined.

(** *** The frame of each style *)

Lemma add_chars_six (cs : list ascii) :
  forall l0 l1 l2 l3 l4 l5 : string,
    exists k0 k1 k2 k3 k4 k5,
      add_chars [l0; l1; l2; l3; l4; l5] cs = Some [k0; k1; k2; k3; k4; k5].
Proof.
  induction cs as [|c cs IH]; intros l0 l1 l2 l3 l4 l5;
    [by eexists _, _, _, _, _, _|].
  destruct (char_lines_six c) as (r0 & r1 & r2 & r3 & r4 & r5 & Hc).
  cbn [add_chars]. rewrite Hc, add_rows_six. apply IH.
Qed.

(** X14: with a style index 0-3 and any time, [get_clock_display] returns
    the frame of the style at that index -- digital, simple, binary, words
    -- and the frame has 6, 1, 8 and 1 lines in that order. *)
Theorem clock_display_by_style (now : Z * Z * Z) (st : AppState)
  (Hi : 0 <= current_style st <= 3) :
  exists lines,
    get_clock_display now st = Some lines
    /\ length lines = Spec.frame_height (current_style st)
    /\ (current_style st = 0 ->
        draw_digital_clock now.1.1 now.1.2 now.2 = Some lines)
    /\ (current_style st = 1 ->
        lines = draw_simple_clock now.1.1 now.1.2 now.2)
    /\ (current_style st = 2 ->
        lines = draw_binary_clock now.1.1 now.1.2 now.2)
    /\ (current_style st = 3 ->
        lines = draw_words_clock now.1.1 now.1.2 now.2).
Proof.
  destruct now as [[h m] s]. cbn [fst snd]. unfold get_clock_display.
  assert (current_style st = 0 \/ current_style st = 1
          \/ current_style st = 2 \/ current_style st = 3)
    as [E | [E | [E | E]]] by lia; rewrite E.
  - change (Py.index styles 0) with (Some "digital"). cbn [String.eqb Ascii.eqb].
    unfold draw_digital_clock.
    destruct (add_chars_six (Py.chars (time_str h m s)) "" "" "" "" "" "")
      as (k0 & k1 & k2 & k3 & k4 & k5 & Hk).
    change (replicate 6 "") with [""; ""; ""; ""; ""; ""].
    change (if ("digital" =? "digital")%string
            then add_chars [""; ""; ""; ""; ""; ""] (Py.chars (time_str h m s))
            else _)
      with (add_chars [""; ""; ""; ""; ""; ""] (Py.chars (time_str h m s))).
    rewrite Hk. eexists. repeat split; try done; lia.
  - eexists. split; [reflexivity|]. repeat split; try done; lia.
  - eexists. split; [reflexivity|]. repeat split; try done; lia.
  - eexists. split; [reflexivity|]. split.
    + unfold draw_words_clock. by destruct (m =? 0).
    + repeat split; try done; lia.
Qed.

Lemma clock_display_by_style_witness :
  get_clock_display (10, 30, 0) init = draw_digital_clock 10 30 0.
Proof.
  destruct (clock_display_by_style (10, 30, 0) init ltac:(simpl; lia))
    as (lines & Hg & _ & Hd & _).
  rewrite Hg. symmetry. exact (Hd eq_refl).
Defined.

(** ** Placing the frame on the screen *)

Lemma draw_centered_lookup (height width : Z) (text_lines : list string)
  (i : nat) :
  draw_centered height width text_lines !! i
  = (fun line =>
       {| y := (height - Z.of_nat (length text_lines)) / 2 + Z.of_nat i;
          x := (width - Py.len line) / 2; text := line |})
      <$> text_lines !! i.
Proof. unfold draw_centered. by rewrite list_lookup_imap. Qed.

(** X15: a frame that fits the window -- no more lines than rows, no line
    wider than the window -- is written line by line on consecutive rows,
    every call inside the window, each line with its left margin equal to
    the right one or one column less. *)
Theorem draw_centered_fits (height width : Z) (text_lines : list string)
  (Hrows : Z.of_nat (length text_lines) <= height)
  (Hcols : Forall (fun line => Py.len line <= width) text_lines) :
  text <$> draw_centered height width text_lines = text_lines
  /\ Forall (Spec.in_window height width)
            (draw_centered height width text_lines)
  /\ Forall (fun c => 0 <= (width - (x c + Py.len (text c))) - x c <= 1)
            (draw_centered height width text_lines)
  /\ forall i c, draw_centered height width text_lines !! i = Some c ->
                 y c = (height - Z.of_nat (length text_lines)) / 2 + Z.of_nat i.
Proof.
  split; [|split; [|split]].
  - apply list_eq. intros i. rewrite list_lookup_fmap, draw_centered_lookup.
    by destruct (text_lines !! i).
  - apply Forall_lookup. intros i c. rewrite draw_centered_lookup.
    destruct (text_lines !! i) as [line|] eqn:E; [|done]. intros [= <-].
    pose proof (Forall_lookup_1 _ _ _ _ Hcols E) as Hw. simpl in Hw.
    pose proof (lookup_lt_Some _ _ _ E) as Hlt.
    pose proof (len_nonneg line).
    unfold Spec.in_window. simpl.
    repeat split; Z.div_mod_to_equations; lia.
  - apply Forall_lookup. intros i c. rewrite draw_centered_lookup.
    destruct (text_lines !! i) as [line|] eqn:E; [|done]. intros [= <-].
    pose proof (Forall_lookup_1 _ _ _ _ Hcols E) as Hw. simpl in Hw.
    simpl. Z.div_mod_to_equations; lia.
  - intros i c. rewrite draw_centered_lookup.
    destruct (text_lines !! i) as [line|]; [|done]. by intros [= <-].
Qed.

Lemma draw_centered_fits_witness :
  Forall (Spec.in_window 24 80) (draw_centered 24 80 (draw_simple_clock 9 5 0)).
Proof.
  refine (proj1 (proj2 (draw_centered_fits 24 80 (draw_simple_clock 9 5 0) _ _))).
  - simpl. lia.
  - repeat constructor. vm_compute. discriminate.
Defined.

(** X16: a line wider than the window is not cut to size: it is passed to
    [addstr] whole, at a negative column; and of a frame with more lines
    than the window has rows the first line is passed at a negative row. *)
Theorem draw_centered_overflow (height width : Z) (text_lines : list string)
  (i : nat) (line : string) (Hline : text_lines !! i = Some line) :
  exists c,
    draw_centered height width text_lines !! i = Some c
    /\ text c = line
    /\ (width < Py.len line -> x c < 0)
    /\ (height < Z.of_nat (length text_lines) -> i = 0%nat -> y c < 0).
Proof.
  rewrite draw_centered_lookup, Hline. eexists. split; [reflexivity|].
  simpl. repeat split.
  - intros Hw. Z.div_mod_to_equations; lia.
  - intros Hh ->. Z.div_mod_to_equations; lia.
Qed.

Lemma draw_centered_overflow_witness :
  exists c,
    draw_centered 24 7 (draw_simple_clock 9 5 0) !! 0%nat = Some c
    /\ x c < 0.
Proof.
  destruct (draw_centered_overflow 24 7 (draw_simple_clock 9 5 0) 0
              "09:05:00" eq_refl) as (c & Hc & _ & Hx & _).
  exists c. split; [exact Hc|]. apply Hx. vm_compute. reflexivity.
Defined.

(** X17: the footer, when shown, goes to the last row but one, centred for
    its 30 characters.  A frame with at least three rows to spare stays
    above the footer row; a frame of two lines or more that fits with at
    most two rows to spare has a line on that very row. *)
Theorem footer_row_and_frame (height width : Z) (text_lines : list string)
  (st : AppState) (Hshow : show_footer st = true) :
  exists f,
    draw_footer_call height width st = [f]
    /\ y f = height - 2
    /\ x f = (width - 30) / 2
    /\ (Z.of_nat (length text_lines) + 3 <= height ->
        Forall (fun c => y c < y f) (draw_centered height width text_lines))
    /\ ((2 <= length text_lines)%nat ->
        Z.of_nat (length text_lines) <= height
                                     <= Z.of_nat (length text_lines) + 2 ->
        Exists (fun c => y c = y f) (draw_centered height width text_lines)).
Proof.
  unfold draw_footer_call. rewrite Hshow. simpl negb. cbv iota.
  eexists. split; [reflexivity|]. simpl y. simpl x.
  split; [done|]. split; [reflexivity|]. split.
  - intros Hroom. apply Forall_lookup. intros i c.
    rewrite draw_centered_lookup.
    destruct (text_lines !! i) as [line|] eqn:E; [|done]. intros [= <-].
    pose proof (lookup_lt_Some _ _ _ E) as Hlt. simpl.
    Z.div_mod_to_equations; lia.
  - intros Hn Hh.
    set (n := length text_lines) in *.
    set (i := Z.to_nat (height - 2 - (height - Z.of_nat n) / 2)).
    assert (i < n)%nat as Hi by (unfold i; Z.div_mod_to_equations; lia).
    destruct (lookup_lt_is_Some_2 text_lines i Hi) as [line E].
    apply Exists_exists.
    exists {| y := (height - Z.of_nat n) / 2 + Z.of_nat i;
              x := (width - Py.len line) / 2; text := line |}.
    split.
    + apply list_elem_of_lookup. exists i.
      rewrite draw_centered_lookup, E. done.
    + simpl. unfold i. Z.div_mod_to_equations; lia.
Qed.

Lemma footer_row_and_frame_witness :
  Exists (fun c => y c = 8) (draw_centered 10 80 (draw_binary_clock 9 5 0)).
Proof.
  destruct (footer_row_and_frame 10 80 (draw_binary_clock 9 5 0) init eq_refl)
    as (f & _ & Hy & _ & _ & Hover).
  rewrite Hy in Hover. apply Hover; simpl; lia.
Defined.

(** *** [center_text] *)

Lemma land_land_1 (a w : Z) :
  Z.land (Z.land a w) 1 = Z.b2z (Z.odd a && Z.odd w).
Proof.
  change 1 with (Z.ones 1) at 1. rewrite Z.land_ones by lia.
  change (2 ^ 1) with 2. rewrite <- Z.bit0_mod, Z.land_spec.
  by rewrite !Z.bit0_odd.
Qed.

(** X18: [center_text] returns a text that is already wide enough as it
    is; otherwise it pads it with spaces on both sides up to the width
    asked for, the same number on each side or, when that cannot be, one
    more on the left if the width is odd and one more on the right if it
    is even. *)
Theorem center_text_padding (text : string) (max_width : Z) :
  exists l r : nat,
    center_text text max_width = Py.spaces l +:+ text +:+ Py.spaces r
    /\ Py.len (center_text text max_width) = Z.max max_width (Py.len text)
    /\ (max_width <= Py.len text -> center_text text max_width = text)
    /\ (l = r
        \/ (l = S r /\ Z.odd max_width = true)
        \/ (r = S l /\ Z.even max_width = true)).
Proof.
  unfold center_text, Py.center.
  destruct (Z.leb_spec max_width (Py.len text)) as [Hle|Hlt].
  - exists 0%nat, 0%nat. cbn [Py.spaces].
    change ("" +:+ text +:+ "") with (text +:+ "").
    rewrite append_empty_r. repeat split; lia.
  - set (marg := max_width - Py.len text).
    set (left := marg / 2 + Z.land (Z.land marg max_width) 1).
    assert (0 <= left <= marg
            /\ (left = marg - left
                \/ (left = marg - left + 1 /\ Z.odd max_width = true)
                \/ (marg - left = left + 1 /\ Z.even max_width = true)))
      as (Hleft & Hside).
    { unfold left. rewrite land_land_1.
      pose proof (Zmod_odd marg) as Hm.
      rewrite <- (Z.negb_odd max_width).
      destruct (Z.odd marg), (Z.odd max_width); simpl;
        (split; [Z.div_mod_to_equations; lia|]).
      - right; left. split; [Z.div_mod_to_equations; lia | done].
      - right; right. split; [Z.div_mod_to_equations; lia | done].
      - left. Z.div_mod_to_equations; lia.
      - left. Z.div_mod_to_equations; lia. }
    exists (Z.to_nat left), (Z.to_nat (marg - left)).
    split; [done|]. split; [|split; [lia|]].
    + rewrite !len_append, !len_spaces. unfold marg in *. lia.
    + destruct Hside as [E | [[E Ho] | [E He]]].
      * left. lia.
      * right; left. split; [lia | done].
      * right; right. split; [lia | done].
Qed.

(** *** Dots and ruler on the screen *)

Lemma columns_from_shift (starts : string -> bool) (line : string) :
  forall col,
    Spec.columns_from starts col line
    = Z.add col <$> Spec.columns_from starts 0 line.
Proof.
  induction line as [|c rest IH]; intros col; [done|].
  cbn [Spec.columns_from].
  destruct (Py.is_continuation c); [apply IH|].
  rewrite fmap_app, (IH (col + 1)), (IH (0 + 1)), <- list_fmap_compose.
  f_equal.
  - destruct (starts (String c rest)); simpl; [f_equal; lia | done].
  - apply list_fmap_ext. intros _ z _. simpl. lia.
Qed.

Lemma binary_line_columns (v : Z) :
  0 <= v < 0 + 64 ->
  Forall (fun label =>
            Py.len (binary_line label v) = 14
            /\ Spec.columns_from Spec.at_dot 0 (binary_line label v)
               = [2; 4; 6; 8; 10; 12])
         ["H "; "M "; "S "].
Proof.
  revert v.
  apply (range_check (fun v =>
    Forall (fun label =>
              Py.len (binary_line label v) = 14
              /\ Spec.columns_from Spec.at_dot 0 (binary_line label v)
                 = [2; 4; 6; 8; 10; 12])
           ["H "; "M "; "S "])).
  by vm_compute.
Qed.

(** X19: on the screen the ruler does not line up with the dots.  For a
    valid time each value line of the binary frame is 14 characters wide
    and its ruler 18, so the ruler starts two columns further left, on the
    next row; the dots stand two columns apart and the digits three, and
    only the third dot (bit 4) has its digit in its own column. *)
Theorem binary_ruler_alignment (h m s height width : Z) (i : nat)
  (Hv : Spec.valid_time h m s) (Hi : i = 0%nat \/ i = 3%nat \/ i = 6%nat) :
  exists value_call ruler_call,
    draw_centered height width (draw_binary_clock h m s) !! i
    = Some value_call
    /\ draw_centered height width (draw_binary_clock h m s) !! S i
       = Some ruler_call
    /\ y ruler_call = y value_call + 1
    /\ x ruler_call = x value_call - 2
    /\ Spec.columns_from Spec.at_dot (x value_call) (text value_call)
       = (fun j => x value_call + 2 + 2 * j) <$> [0; 1; 2; 3; 4; 5]
    /\ Spec.columns_from Spec.at_digit (x ruler_call) (text ruler_call)
       = (fun j => x value_call + 3 * j) <$> [0; 1; 2; 3; 4; 5].
Proof.
  destruct Hv as (Hh & Hm & Hs).
  assert (0 <= h mod 24 < 0 + 64) as Hh' by (Z.div_mod_to_equations; lia).
  pose proof (binary_line_columns (h mod 24) Hh') as Fh.
  pose proof (binary_line_columns m ltac:(lia)) as Fm.
  pose proof (binary_line_columns s ltac:(lia)) as Fs.
  rewrite !Forall_cons in Fh, Fm, Fs.
  destruct Fh as ([Lh Ch] & _ & _), Fm as (_ & [Lm Cm] & _),
           Fs as (_ & _ & [Ls Cs] & _).
  rewrite !draw_centered_lookup, draw_binary_clock_lines.
  pose (rl := ruler).
  assert (Py.len rl = 18) as Lr by reflexivity.
  assert (Spec.columns_from Spec.at_digit 0 rl = [2; 5; 8; 11; 14; 17])
    as Cr by reflexivity.
  change ruler with rl. clearbody rl.
  destruct Hi as [-> | [-> | ->]]; simpl lookup; simpl fmap;
    eexists _, _; (split; [reflexivity|]); (split; [reflexivity|]);
    cbn [y x text];
    rewrite (columns_from_shift Spec.at_dot),
            (columns_from_shift Spec.at_digit), Cr, ?Ch, ?Cm, ?Cs,
            ?Lh, ?Lm, ?Ls, Lr;
    (split; [lia|]); (split; [Z.div_mod_to_equations; lia|]);
    split; simpl;
    repeat (apply (f_equal2 (@cons Z)); [Z.div_mod_to_equations; lia|]);
    reflexivity.
Qed.

Lemma binary_ruler_alignment_witness :
  exists value_call ruler_call,
    draw_centered 24 80 (draw_binary_clock 9 5 0) !! 3%nat = Some value_call
    /\ draw_centered 24 80 (draw_binary_clock 9 5 0) !! 4%nat = Some ruler_call
    /\ x value_call = 33 /\ x ruler_call = 31.
Proof.
  destruct (binary_ruler_alignment 9 5 0 24 80 3
              ltac:(unfold Spec.valid_time; lia) ltac:(right; left; reflexivity))
    as (cv & cr & Hv & Hr & _ & Hx & _).
  exists cv, cr. split; [exact Hv|]. split; [exact Hr|].
  assert (x cv = 33) as E.
  { revert Hv. vm_compute. by intros [= <-]. }
  split; [exact E|]. rewrite Hx, E. reflexivity.
Defined.

(** ** Hours out of range, minutes in numerals *)

(** X20: the binary style wraps the hour modulo 24, whatever integer it is
    given: the hours line always has six dots that spell [h mod 24], and
    hours that differ by a multiple of 24 give the same frame. *)
Theorem binary_hours_wrap (h m s k : Z) :
  draw_binary_clock (h + 24 * k) m s = draw_binary_clock h m s
  /\ exists hours_line,
      draw_binary_clock h m s !! 0%nat = Some hours_line
      /\ length (Spec.dot_pattern hours_line) = 6%nat
      /\ Spec.msb_first (Spec.dot_pattern hours_line) = h mod 24.
Proof.
  split.
  - rewrite !draw_binary_clock_lines.
    replace ((h + 24 * k) mod 24) with (h mod 24); [done|].
    rewrite (Z.mul_comm 24 k). by rewrite Z.mod_add.
  - rewrite draw_binary_clock_lines. eexists. split; [reflexivity|].
    assert (0 <= h mod 24 < 0 + 64) as Hh by (Z.div_mod_to_equations; lia).
    pose proof (binary_line_decodes (h mod 24) Hh) as Fh.
    rewrite !Forall_cons in Fh. by destruct Fh as ([? ?] & _).
Qed.

(** X21: the hour of the words style is always one of the twelve English
    words, for every integer hour: the numeral fallback of the number
    lookup cannot show in the hour. *)
Theorem words_hour_always_english (h : Z) :
  exists n, 1 <= n <= 12 /\ Spec.english n = Some (hours_word h)
            /\ Spec.has_digit (hours_word h) = false.
Proof.
  assert (forall n, 1 <= n < 1 + 12 ->
            Spec.english n = Some (_number_to_words n)
            /\ Spec.has_digit (_number_to_words n) = false) as Hn.
  { apply (range_check (fun n =>
             Spec.english n = Some (_number_to_words n)
             /\ Spec.has_digit (_number_to_words n) = false)).
    by vm_compute. }
  unfold hours_word.
  destruct (Z.eqb_spec (h mod 12) 0) as [_|Hne].
  - exists 12. split; [lia|]. apply Hn. lia.
  - exists (h mod 12).
    assert (1 <= h mod 12 < 1 + 12) as Hr by (Z.div_mod_to_equations; lia).
    split; [lia|]. by apply Hn.
Qed.

(** X22: the minutes whose phrase is all words are 1-12, 15, 30 and 41-52;
    for every other minute from 1 to 59 the phrase shows a numeral. *)
Theorem minutes_in_words (m : Z) (Hm : 1 <= m <= 59) :
  Spec.has_digit (_minutes_to_words m) = false
  <-> (1 <= m <= 12 \/ m = 15 \/ m = 30 \/ 41 <= m <= 52).
Proof.
  assert (1 <= m < 1 + 59) as Hr by lia. clear Hm. revert m Hr.
  apply (range_check (fun m =>
    Spec.has_digit (_minutes_to_words m) = false
    <-> (1 <= m <= 12 \/ m = 15 \/ m = 30 \/ 41 <= m <= 52))).
  by vm_compute.
Qed.

Lemma minutes_in_words_witness :
  Spec.has_digit (_minutes_to_words 40) = true.
Proof.
  destruct (Spec.has_digit (_minutes_to_words 40)) eqn:E; [reflexivity|].
  apply (minutes_in_words 40 ltac:(lia)) in E. lia.
Defined.

Lemma center_text_padding_witness :
  center_text "12:00" 2 = "12:00"
  /\ Py.len (center_text "ab" 5) = 5.
Proof.
  split.
  - destruct (center_text_padding "12:00" 2) as (l & r & _ & _ & H & _).
    apply H. by vm_compute.
  - destruct (center_text_padding "ab" 5) as (l & r & _ & H & _).
    rewrite H. reflexivity.
Defined.

Example center_odd : center_text "ab" 5 = "  ab ". Proof. reflexivity. Qed.
Example center_even : center_text "abc" 6 = " abc  ". Proof. reflexivity. Qed.
Example len_glyph_row : Py.len " ████ " = 6. Proof. reflexivity. Qed.
